(** * metify: the Cython speed-up layer ([src/metify/_speedups.pyx])

    A shallow embedding of the attribute access, validation, serialization,
    batch processing, type registry, instance pool and cached descriptor of
    [_speedups.pyx], followed by the properties of the specification that
    concern them.

    Python objects live in a store; every function of the source that reads
    or writes attributes is a computation over that store which either
    returns a value or raises. *)

From stdpp Require Import base tactics option list gmap strings fin_maps.
From Stdlib Require Import ZArith Lia.

Local Open Scope string_scope.
Local Open Scope Z_scope.

(** ** Values, exceptions and the object store *)

Abbreviation loc := nat.

(** A Python value as the module sees it.  [VNone] is the [None] singleton
    and [VMissing] the [_MISSING] sentinel; both are compared with [is] in
    the source, which is equality of constructors here.  [VFunc] is a
    function object (a callable, known by its qualified name) and [VRef] a
    reference to an object of the store: two references are the same object
    exactly when their locations are equal. *)
Inductive Value : Type :=
  | VNone
  | VMissing
  | VInt (z : Z)
  | VStr (s : string)
  | VFunc (qualname : string)
  | VRef (l : loc).

#[global] Instance Value_eq_dec : EqDecision Value.
Proof. solve_decision. Defined.

(** Exception classes.  Every class below derives from [Exception], the
    class named by the [except Exception] clauses of the source;
    [UserError] stands for any exception class of the caller.  What a
    validator, serializer or factory raises to report a failure is of one of
    these classes; [KeyboardInterrupt] and [SystemExit], which are not
    failures of a callback, are not modelled. *)
Inductive ExcClass : Type :=
  | Exception
  | AttributeError
  | ValueError
  | TypeError
  | OverflowError
  | UserError (name : string).

#[global] Instance ExcClass_eq_dec : EqDecision ExcClass.
Proof. solve_decision. Defined.

(** An exception instance; [exc_msg] is [str(e)], what [f"{e}"] prints. *)
Record PyExc : Type := mkExc { exc_class : ExcClass; exc_msg : string }.

#[global] Instance PyExc_eq_dec : EqDecision PyExc.
Proof. solve_decision. Defined.

(** [issubclass c base] on the classes above. *)
Definition issubclass (c base : ExcClass) : bool :=
  match base with
  | Exception => true
  | _ => bool_decide (c = base)
  end.

Definition exc_matches (e : PyExc) (base : ExcClass) : bool :=
  issubclass (exc_class e) base.

Inductive Result (A : Type) : Type :=
  | Ok (a : A)
  | Raise (e : PyExc).
Arguments Ok {A} a.
Arguments Raise {A} e.

(** Objects of the store: an instance of a user class with its attribute
    dictionary, or a list. *)
Inductive HeapObj : Type :=
  | Instance (cls : string) (attrs : gmap string Value)
  | ListObj (items : list Value).

(** Attribute operations are recorded, in order, so that a property can say
    which attributes a function touched. *)
Inductive Event : Type :=
  | EvGet (obj : Value) (name : string)
  | EvSet (obj : Value) (name : string) (v : Value)
  | EvDel (obj : Value) (name : string).

Definition event_name (ev : Event) : string :=
  match ev with
  | EvGet _ n | EvSet _ n _ | EvDel _ n => n
  end.

Record World : Type := mkWorld { heap : list HeapObj; trace : list Event }.

Definition log (ev : Event) (w : World) : World :=
  {| heap := heap w; trace := trace w ++ [ev] |}.

Definition set_heap (h : list HeapObj) (w : World) : World :=
  {| heap := h; trace := trace w |}.

(** ** Computations that may raise *)

Definition M (A : Type) : Type := World → Result A * World.

Definition ret {A} (a : A) : M A := λ w, (Ok a, w).

Definition raise {A} (e : PyExc) : M A := λ w, (Raise e, w).

Definition lift {A} (r : Result A) : M A := λ w, (r, w).

Definition bind {A B} (m : M A) (k : A → M B) : M B :=
  λ w, match m w with
       | (Ok a, w') => k a w'
       | (Raise e, w') => (Raise e, w')
       end.

(** [try: m  except base as e: handler e]; an exception of another class
    passes through. *)
Definition try_except {A} (m : M A) (base : ExcClass) (handler : PyExc → M A) : M A :=
  λ w, match m w with
       | (Ok a, w') => (Ok a, w')
       | (Raise e, w') =>
           if exc_matches e base then handler e w' else (Raise e, w')
       end.

Notation "'let!' x ':=' m 'in' k" := (bind m (λ x, k))
  (at level 10, x pattern, m at level 100, k at level 200, only parsing).

(** [for x in l: s = body s x]. *)
Fixpoint foldM {A S} (body : S → A → M S) (l : list A) (s : S) : M S :=
  match l with
  | [] => ret s
  | x :: l' => let! s' := body s x in foldM body l' s'
  end.

Definition for_each {A} (l : list A) (body : A → M unit) : M unit :=
  foldM (λ _ x, body x) l tt.

(** ** Built-ins used by the module *)

Definition type_name (h : list HeapObj) (obj : Value) : string :=
  match obj with
  | VNone => "NoneType"
  | VMissing => "object"
  | VInt _ => "int"
  | VStr _ => "str"
  | VFunc _ => "function"
  | VRef l =>
      match h !! l with
      | Some (Instance c _) => c
      | Some (ListObj _) => "list"
      | None => "object"
      end
  end.

(** The attribute dictionary of [obj], when [obj] is an instance. *)
Definition instance_dict (h : list HeapObj) (obj : Value) : option (gmap string Value) :=
  match obj with
  | VRef l =>
      match h !! l with
      | Some (Instance _ attrs) => Some attrs
      | _ => None
      end
  | _ => None
  end.

(** The value stored under [name] on [obj], if any. *)
Definition attr_of (h : list HeapObj) (obj : Value) (name : string) : option Value :=
  instance_dict h obj ≫= (λ attrs, attrs !! name).

Definition no_attribute (h : list HeapObj) (obj : Value) (name : string) : PyExc :=
  mkExc AttributeError
    ("'" +:+ type_name h obj +:+ "' object has no attribute '" +:+ name +:+ "'").

(** [PyObject_GetAttr(obj, name)] for a name that the type of the object
    does not provide: the entry of the instance dictionary, or
    [AttributeError] when there is none.  What a lookup finds on the type
    (methods, class attributes such as [__doc__] or [_fields], properties
    and other descriptors, the attributes of built-in values) is not
    modelled; the names read in this file are data attributes of
    instances. *)
Definition PyObject_GetAttr (obj : Value) (name : string) : M Value :=
  λ w, let w' := log (EvGet obj name) w in
       match attr_of (heap w) obj name with
       | Some v => (Ok v, w')
       | None => (Raise (no_attribute (heap w) obj name), w')
       end.

(** [PyObject_SetAttr(obj, name, value)], declared [except -1] by Cython:
    it returns 0 on an instance, which has a dictionary and takes every
    name.  Of the other values the model covers those without a dictionary
    ([None], numbers, strings, list objects), which raise [AttributeError];
    instances of slotted classes and writes to function or type objects
    are not modelled. *)
Definition PyObject_SetAttr (obj : Value) (name : string) (v : Value) : M Z :=
  λ w, let w' := log (EvSet obj name v) w in
       match obj with
       | VRef l =>
           match heap w !! l with
           | Some (Instance c attrs) =>
               (Ok 0, set_heap (<[l := Instance c (<[name := v]> attrs)]> (heap w)) w')
           | _ => (Raise (no_attribute (heap w) obj name), w')
           end
       | _ => (Raise (no_attribute (heap w) obj name), w')
       end.

(** The [setattr] built-in. *)
Definition setattr (obj : Value) (name : string) (v : Value) : M unit :=
  let! _ := PyObject_SetAttr obj name v in ret tt.

(** The [delattr] built-in. *)
Definition delattr (obj : Value) (name : string) : M unit :=
  λ w, let w' := log (EvDel obj name) w in
       match obj with
       | VRef l =>
           match heap w !! l with
           | Some (Instance c attrs) =>
               match attrs !! name with
               | Some _ =>
                   (Ok tt, set_heap (<[l := Instance c (delete name attrs)]> (heap w)) w')
               | None => (Raise (no_attribute (heap w) obj name), w')
               end
           | _ => (Raise (no_attribute (heap w) obj name), w')
           end
       | _ => (Raise (no_attribute (heap w) obj name), w')
       end.

(** [dir(obj)]: the names of the instance dictionary.  The names a class
    contributes are not listed: deleting one of them through the instance
    fails, and [release], the only caller, ignores that failure. *)
Definition dir (obj : Value) : M (list string) :=
  λ w, (Ok (match instance_dict (heap w) obj with
            | Some attrs => (map_to_list attrs).*1
            | None => []
            end), w).

(** [str.startswith]. *)
Definition startswith (s pre : string) : bool :=
  bool_decide (String.substring 0 (String.length pre) s = pre).

(** Conversion of a Python [int] to a C [int] (32 bits): Cython raises
    [OverflowError] outside the range. *)
Definition INT_MIN : Z := - 2 ^ 31.
Definition INT_MAX : Z := 2 ^ 31 - 1.

Definition to_c_int (z : Z) : Result Z :=
  if bool_decide (INT_MIN ≤ z ≤ INT_MAX) then Ok z
  else Raise (mkExc OverflowError "value too large to convert to int").

(** ** Field metadata ([.core._meta], [.core.types]) *)

(** A type object: its name and the names of the classes of its method
    resolution order, itself first. *)
Record PyType : Type := mkType { ty_name : string; ty_mro : list string }.

#[global] Instance PyType_eq_dec : EqDecision PyType.
Proof. solve_decision. Defined.

#[global] Instance PyType_countable : Countable PyType :=
  inj_countable' (λ t, (ty_name t, ty_mro t)) (λ p, mkType p.1 p.2)
    (λ t, match t with mkType _ _ => eq_refl end).

(** [ValidatorFn] and [SerializerFn] of [.core.types]: a function from a
    value to a value that fails on an invalid one. *)
Definition ValidatorFn : Type := Value → Result Value.
Definition SerializerFn : Type := Value → Result Value.

(** Modelled from the spec: the default factory of a field, which is not
    under src/.  [factory_obj] is the object held in the field's [default]
    attribute (the factory itself) and [factory_call] what calling it does:
    it produces a value and may allocate in the store. *)
Record Factory : Type := mkFactory { factory_obj : Value; factory_call : M Value }.

Module MetaField.

(** Modelled from the spec: [MetaField] of [.core._meta], which is not
    under src/.  The spec's FieldSpec is the record of a name, a declared
    type, an optional validator, an optional serializer and an optional
    default factory; [has_default] says whether the factory is there. *)
Record t : Type := mk {
  name : string;
  type : PyType;
  validator : option ValidatorFn;
  serializer : option SerializerFn;
  default : option Factory
}.

(** Modelled from the spec: [MetaField.has_default()]. *)
Definition has_default (f : t) : bool :=
  match default f with Some _ => true | None => false end.

(** Modelled from the spec: the object read by the expression
    [field.default], the factory when there is one.  The source reads it
    under [has_default()] only. *)
Definition default_attr (f : t) : Value :=
  match default f with
  | Some fac => factory_obj fac
  | None => VMissing
  end.

(** Modelled from the spec: [MetaField.produce()], a fresh default value
    from the factory.  The source calls it under [has_default()] only. *)
Definition produce (f : t) : M Value :=
  match default f with
  | Some fac => factory_call fac
  | None => raise (mkExc ValueError "field has no default")
  end.

End MetaField.

(** A [Dict[str, MetaField]]: the entries in insertion order. *)
Definition FieldTable : Type := list (string * MetaField.t).

(** ** Attribute access *)

Module FastFieldAccess.

Definition get_attr_fast (obj : Value) (name : string) (default : Value) : M Value :=
  try_except
    (let! result := PyObject_GetAttr obj name in ret result)
    AttributeError
    (λ _, ret default).

Definition set_attr_fast (obj : Value) (name : string) (value : Value) : M unit :=
  let! rc := PyObject_SetAttr obj name value in
  if rc <? 0
  then raise (mkExc AttributeError ("Cannot set attribute " +:+ name))
  else ret tt.

End FastFieldAccess.


Definition fast_setattr (obj : Value) (name : string) (value : Value) : M unit :=
  FastFieldAccess.set_attr_fast obj name value.

(** ** Validation and serialization of one value *)

Module FieldValidator.

Definition validate_with_type_check
    (value : Value) (field_type : PyType) (validator : option ValidatorFn) : M Value :=
  match validator with
  | None => ret value
  | Some validator =>
      try_except (lift (validator value)) Exception
        (λ e, raise (mkExc ValueError ("Validation failed: " +:+ exc_msg e)))
  end.

End FieldValidator.

Definition fast_validate (value : Value) (field : MetaField.t) : M Value :=
  match MetaField.validator field with
  | None => ret value
  | Some _ =>
      FieldValidator.validate_with_type_check
        value (MetaField.type field) (MetaField.validator field)
  end.

Module FieldSerializer.

Definition serialize_value (value : Value) (serializer : option SerializerFn) : M Value :=
  match serializer with
  | None => ret value
  | Some serializer =>
      try_except (lift (serializer value)) Exception
        (λ e, raise (mkExc ValueError ("Serialization failed: " +:+ exc_msg e)))
  end.

End FieldSerializer.

Definition fast_serialize (value : Value) (field : MetaField.t) : M Value :=
  match MetaField.serializer field with
  | None => ret value
  | Some _ => FieldSerializer.serialize_value value (MetaField.serializer field)
  end.

(** ** Batch processing *)

(** [d[k] = v] on a dictionary kept in insertion order. *)
Fixpoint dict_set (k : string) (v : Value) (d : list (string * Value)) : list (string * Value) :=
  match d with
  | [] => [(k, v)]
  | (k', v') :: d' =>
      if decide (k' = k) then (k', v) :: d' else (k', v') :: dict_set k v d'
  end.

Module BatchProcessor.

(** The body of the inner loop of [validate_batch]. *)
Definition validate_field (obj : Value) (entry : string * MetaField.t) : M unit :=
  let '(field_name, field) := entry in
  match MetaField.validator field with
  | Some _ =>
      try_except
        (let! value := FastFieldAccess.get_attr_fast obj field_name VMissing in
         if decide (value = VMissing) then ret tt
         else
           let! validated :=
             FieldValidator.validate_with_type_check
               value (MetaField.type field) (MetaField.validator field) in
           setattr obj field_name validated)
        Exception
        (λ _, ret tt)
  | None => ret tt
  end.

Definition validate_batch (objects : list Value) (fields : FieldTable) : M (list Value) :=
  foldM
    (λ (results : list Value) obj,
       let! _ := for_each fields (validate_field obj) in
       ret (results ++ [obj])%list)
    objects [].

(** The body of the inner loop of [serialize_batch]; returning
    [obj_dict] as it is stands for [continue]. *)
Definition serialize_field (obj : Value) (exclude_none : bool)
    (obj_dict : list (string * Value)) (entry : string * MetaField.t)
    : M (list (string * Value)) :=
  let '(field_name, field) := entry in
  let store (value : Value) : M (list (string * Value)) :=
    if exclude_none && bool_decide (value = VNone) then ret obj_dict
    else
      let! value :=
        match MetaField.serializer field with
        | Some _ => FieldSerializer.serialize_value value (MetaField.serializer field)
        | None => ret value
        end in
      ret (dict_set field_name value obj_dict) in
  try_except
    (let! value := PyObject_GetAttr obj field_name in
     let value := if decide (value = VNone) then VMissing else value in
     if decide (value = VMissing) then
       if MetaField.has_default field
       then let! value := MetaField.produce field in store value
       else ret obj_dict
     else store value)
    Exception
    (λ _, ret obj_dict).

Definition serialize_batch (objects : list Value) (fields : FieldTable)
    (exclude_none : bool) : M (list (list (string * Value))) :=
  foldM
    (λ (results : list (list (string * Value))) obj,
       let! obj_dict := foldM (serialize_field obj exclude_none) fields [] in
       ret (results ++ [obj_dict])%list)
    objects [].

End BatchProcessor.

Definition validate_models_batch (models : list Value) (fields : FieldTable) : M (list Value) :=
  BatchProcessor.validate_batch models fields.

Definition serialize_models_batch (models : list Value) (fields : FieldTable)
    (exclude_none : bool) : M (list (list (string * Value))) :=
  BatchProcessor.serialize_batch models fields exclude_none.

(** ** Type-based dispatch *)

(** [isinstance] of a value whose type is [value_type]. *)
Definition isinstance (value_type expected_type : PyType) : bool :=
  bool_decide (ty_name expected_type ∈ ty_mro value_type).

Module TypeDispatcher.

(** The module-level dictionary [TYPE_VALIDATORS], passed explicitly. *)
Abbreviation Registry := (gmap PyType ValidatorFn).

Definition TYPE_VALIDATORS : Registry := ∅.

(** [is_valid_type(value, expected_type)]; the value is given by its
    type, which is all the function inspects. *)
Definition is_valid_type (value_type expected_type : PyType) : bool :=
  if decide (value_type = expected_type) then true
  else isinstance value_type expected_type.

Definition register_type_validator
    (type_obj : PyType) (validator : ValidatorFn) (reg : Registry) : Registry :=
  <[type_obj := validator]> reg.

Definition get_type_validator (type_obj : PyType) (reg : Registry) : option ValidatorFn :=
  reg !! type_obj.

End TypeDispatcher.

(** ** The instance pool *)

(** A model class: its name, its [_fields] attribute, when it has one, and
    its initializer [__init__]. *)
Record PyClass : Type := mkClass {
  cls_name : string;
  cls_fields : option FieldTable;
  cls_init : Value → M unit
}.

(** [object.__new__(cls)]: a new instance with an empty dictionary; the
    initializer of the class is not called. *)
Definition object_new (cls : PyClass) : M Value :=
  λ w, (Ok (VRef (length (heap w))),
        set_heap (heap w ++ [Instance (cls_name cls) ∅]) w).

(** [cls()], the normal construction, for comparison: allocation followed
    by the initializer. *)
Definition construct (cls : PyClass) : M Value :=
  let! instance := object_new cls in
  let! _ := cls_init cls instance in
  ret instance.

(** [list.pop()]: the last item and the items before it. *)
Definition list_pop {A} (l : list A) : option (A * list A) :=
  match reverse l with
  | [] => None
  | x :: r => Some (x, reverse r)
  end.

Module MemoryPool.

Record t : Type := mk {
  _pool : list Value;
  _model_class : PyClass;
  _max_size : Z;
  _field_defaults : list (string * Value)
}.

Definition with_pool (self : t) (pool : list Value) : t :=
  {| _pool := pool; _model_class := _model_class self;
     _max_size := _max_size self; _field_defaults := _field_defaults self |}.

Definition __init__ (model_class : PyClass) (max_size : Z) : Result t :=
  match to_c_int max_size with
  | Raise e => Raise e
  | Ok max_size =>
      Ok {| _pool := [];
            _model_class := model_class;
            _max_size := max_size;
            _field_defaults :=
              match cls_fields model_class with
              | Some fields_dict =>
                  fold_left
                    (λ d (entry : string * MetaField.t),
                       if MetaField.has_default entry.2
                       then dict_set entry.1 (MetaField.default_attr entry.2) d
                       else d)
                    fields_dict []
              | None => []
              end |}
  end.

Definition acquire (self : t) : M (Value * t) :=
  match list_pop (_pool self) with
  | Some (instance, rest) =>
      let! _ :=
        for_each (_field_defaults self)
          (λ entry, try_except (setattr instance entry.1 entry.2)
                      Exception (λ _, ret tt)) in
      ret (instance, with_pool self rest)
  | None =>
      let! instance := object_new (_model_class self) in
      ret (instance, self)
  end.

Definition release (self : t) (obj : Value) : M t :=
  if Z.of_nat (length (_pool self)) <? _max_size self then
    let! names := dir obj in
    let! _ :=
      for_each names
        (λ attr,
           if negb (startswith attr "_")
              && negb (bool_decide (attr ∈ (_field_defaults self).*1))
           then try_except (delattr obj attr) Exception (λ _, ret tt)
           else ret tt) in
    ret (with_pool self (_pool self ++ [obj]))
  else ret self.

Definition clear (self : t) : t := with_pool self [].

Definition size (self : t) : Z := Z.of_nat (length (_pool self)).

End MemoryPool.

Definition create_model_pool (model_class : PyClass) (max_size : Z) : Result MemoryPool.t :=
  MemoryPool.__init__ model_class max_size.

(** ** The cached descriptor *)

Module OptimizedDescriptor.

Record t : Type := mk {
  name : string;
  field : MetaField.t;
  _cache : gmap Z Value
}.

Definition with_cache (self : t) (cache : gmap Z Value) : t :=
  {| name := name self; field := field self; _cache := cache |}.

Definition __init__ (name : string) (field : MetaField.t) : t :=
  {| name := name; field := field; _cache := ∅ |}.

(** What [__get__] returns: the descriptor itself, or a value. *)
Inductive GetResult : Type :=
  | RetSelf
  | RetValue (v : Value).

Section WithId.

(** The [id] built-in: the address of an object. *)
Variable py_id : Value → Z.

(** [f"_{self.name}"], the name of the backing attribute. *)
Definition shadow (self : t) : string := "_" +:+ name self.

(** [__get__(obj, objtype)]; [objtype] is not used by the source. *)
Definition __get__ (self : t) (obj : Value) : M (GetResult * t) :=
  if decide (obj = VNone) then ret (RetSelf, self)
  else
    let! obj_id := lift (to_c_int (py_id obj)) in
    match _cache self !! obj_id with
    | Some cached => ret (RetValue cached, self)
    | None =>
        try_except
          (let! value := PyObject_GetAttr obj (shadow self) in
           ret (RetValue value, with_cache self (<[obj_id := value]> (_cache self))))
          AttributeError
          (λ _,
             if MetaField.has_default (field self) then
               let! value := MetaField.produce (field self) in
               let! _ := setattr obj (shadow self) value in
               ret (RetValue value, with_cache self (<[obj_id := value]> (_cache self)))
             else
               λ w, (Raise (mkExc AttributeError
                              ("'" +:+ type_name (heap w) obj
                               +:+ "' has no attribute '" +:+ name self +:+ "'")), w))
    end.

Definition __set__ (self : t) (obj : Value) (value : Value) : M t :=
  let! obj_id := lift (to_c_int (py_id obj)) in
  let! value :=
    match MetaField.validator (field self) with
    | Some validator => lift (validator value)
    | None => ret value
    end in
  let! _ := setattr obj (shadow self) value in
  ret (with_cache self (<[obj_id := value]> (_cache self))).

End WithId.

Definition clear_cache (self : t) : t := with_cache self ∅.

End OptimizedDescriptor.

Definition create_optimized_descriptor (name : string) (field : MetaField.t)
    : OptimizedDescriptor.t :=
  OptimizedDescriptor.__init__ name field.

(** ** Vocabulary of the properties *)

(** The attribute [f] of every object is the same in [w'] as in [w]. *)
Definition same_attr (f : string) (w w' : World) : Prop :=
  ∀ o, attr_of (heap w') o f = attr_of (heap w) o f.

(** From [w] to [w'] the attribute operations performed all satisfy [P]. *)
Definition appended (P : Event → Prop) (w w' : World) : Prop :=
  ∃ evs, trace w' = (trace w ++ evs)%list ∧ Forall P evs.

(** From [w] to [w'] no attribute named [f] was read, written or deleted. *)
Definition untouched (f : string) (w w' : World) : Prop :=
  appended (λ ev, event_name ev ≠ f) w w'.

(** A validator that raises on every input. *)
Definition raises_always (v : ValidatorFn) : Prop :=
  ∀ x, ∃ e, v x = Raise e.

(** The attribute operations of one step of the inner loop of
    [validate_batch]: for a field with a validator, a read of the field on
    the object and possibly a write back. *)
Definition field_event (obj : Value) (g : string) (fld : MetaField.t) (ev : Event) : Prop :=
  MetaField.validator fld ≠ None ∧ (ev = EvGet obj g ∨ ∃ x, ev = EvSet obj g x).

(** ** Example data *)

Definition int_type : PyType := mkType "int" ["int"; "object"].
Definition list_type : PyType := mkType "list" ["list"; "object"].
Definition Point : PyType := mkType "Point" ["Point"; "object"].
Definition ColoredPoint : PyType := mkType "ColoredPoint" ["ColoredPoint"; "Point"; "object"].

(** [v -> fail if v < 0]. *)
Definition non_negative : ValidatorFn :=
  λ v, match v with
       | VInt z => if z <? 0 then Raise (mkExc (UserError "NegativeAge") "age must be >= 0")
                   else Ok v
       | _ => Ok v
       end.

(** A validator that rejects everything. *)
Definition raise_always : ValidatorFn :=
  λ _, Raise (mkExc TypeError "rejected").

(** A validator that normalizes: [abs]. *)
Definition absolute : ValidatorFn :=
  λ v, match v with
       | VInt z => Ok (VInt (Z.abs z))
       | _ => Raise (mkExc TypeError "bad operand type for abs()")
       end.

(** [lambda: 0]. *)
Definition zero_factory : Factory := mkFactory (VFunc "<lambda>") (ret (VInt 0)).

(** [list]: every call allocates a new, empty list. *)
Definition list_factory : Factory :=
  mkFactory (VFunc "list")
    (λ w, (Ok (VRef (length (heap w))), set_heap (heap w ++ [ListObj []]) w)).

Definition age_field : MetaField.t :=
  MetaField.mk "age" int_type (Some non_negative) None (Some zero_factory).

Definition plain_field : MetaField.t :=
  MetaField.mk "note" int_type None None None.

Definition locked_field : MetaField.t :=
  MetaField.mk "locked" int_type (Some raise_always) None None.

Definition size_field : MetaField.t :=
  MetaField.mk "size" int_type (Some absolute) None None.

Definition tags_field : MetaField.t :=
  MetaField.mk "tags" list_type None None (Some list_factory).

Definition age_table : FieldTable := [("age", age_field)].

Definition mixed_table : FieldTable :=
  [("locked", locked_field); ("note", plain_field); ("size", size_field)].

(** One instance without attributes. *)
Definition bare_world : World := mkWorld [Instance "Person" ∅] [].

(** Two instances carrying the three attributes of [mixed_table]. *)
Definition two_records : World :=
  mkWorld
    [Instance "Record" {["locked" := VInt 1; "note" := VInt (-2); "size" := VInt (-3)]};
     Instance "Record" {["locked" := VInt 4; "note" := VInt (-5); "size" := VInt (-6)]}]
    [].

(** A model class with one defaulted field; its initializer sets it. *)
Definition Tagged : PyClass :=
  mkClass "Tagged" (Some [("tags", tags_field)])
    (λ self, let! tags := MetaField.produce tags_field in setattr self "tags" tags).

(** Two [Tagged] instances in use; the first one holds a list of its own. *)
Definition tagged_world : World :=
  mkWorld
    [Instance "Tagged" {["tags" := VRef 2%nat]};
     Instance "Tagged" ∅;
     ListObj [VStr "x"]]
    [].

(** Both instances are released, then two instances are acquired. *)
Definition release_two_acquire_two (pool : MemoryPool.t) : M (Value * Value) :=
  let! pool := MemoryPool.release pool (VRef 0%nat) in
  let! pool := MemoryPool.release pool (VRef 1%nat) in
  let! first := MemoryPool.acquire pool in
  let! second := MemoryPool.acquire first.2 in
  ret (first.1, second.1).

(** ** Sequences of pool operations *)

Inductive PoolOp : Type :=
  | OpAcquire
  | OpRelease (obj : Value)
  | OpClear.

(** One operation on a pool and the world.  [acquire] and [release] never
    raise ([acquire_returns], [release_returns]), so the [Raise] cases are
    never taken. *)
Definition run_op (st : MemoryPool.t * World) (op : PoolOp) : MemoryPool.t * World :=
  match op with
  | OpAcquire =>
      match MemoryPool.acquire st.1 st.2 with
      | (Ok (_, pool'), w') => (pool', w')
      | (Raise _, w') => (st.1, w')
      end
  | OpRelease obj =>
      match MemoryPool.release st.1 obj st.2 with
      | (Ok pool', w') => (pool', w')
      | (Raise _, w') => (st.1, w')
      end
  | OpClear => (MemoryPool.clear st.1, st.2)
  end.

Definition run_ops (ops : list PoolOp) (st : MemoryPool.t * World) : MemoryPool.t * World :=
  fold_left run_op ops st.

(** [pool.release(pool.acquire())]. *)
Definition round_trip (st : MemoryPool.t * World) : MemoryPool.t * World :=
  match MemoryPool.acquire st.1 st.2 with
  | (Ok (instance, pool'), w') => run_op (pool', w') (OpRelease instance)
  | (Raise _, w') => (st.1, w')
  end.

Definition round_trips (n : nat) (st : MemoryPool.t * World) : MemoryPool.t * World :=
  Nat.iter n round_trip st.

(** The bound on the free list, and the capacity, are kept by every
    operation. *)
Definition pool_inv (max_size : Z) (p : MemoryPool.t) : Prop :=
  MemoryPool._max_size p = max_size ∧ MemoryPool.size p ≤ Z.max 0 max_size.

(** ** Example descriptors *)

(** Addresses that fit a C [int]. *)
Definition low_addresses (obj : Value) : Z :=
  match obj with
  | VRef l => 4096 + 16 * Z.of_nat l
  | _ => 64
  end.

(** Addresses as a 64-bit allocator hands them out. *)
Definition high_addresses (obj : Value) : Z :=
  match obj with
  | VRef l => 2 ^ 46 + 16 * Z.of_nat l
  | _ => 2 ^ 45
  end.

Definition size_descriptor : OptimizedDescriptor.t :=
  create_optimized_descriptor "size" size_field.

Definition age_descriptor : OptimizedDescriptor.t :=
  create_optimized_descriptor "age" age_field.

(** An instance whose shadow attribute [_age] is 7, and one without. *)
Definition shadow_world : World :=
  mkWorld [Instance "Person" {["_age" := VInt 7]}; Instance "Person" ∅] [].

(** The descriptor of a field without validator and default, and an
    instance whose shadow attribute [_note] is 7. *)
Definition note_descriptor : OptimizedDescriptor.t :=
  create_optimized_descriptor "note" plain_field.

Definition note_world : World :=
  mkWorld [Instance "Person" {["_note" := VInt 7]}] [].

(** A descriptor that has cached 99 for the first instance. *)
Definition stale_descriptor : OptimizedDescriptor.t :=
  OptimizedDescriptor.with_cache age_descriptor {[4096 := VInt 99]}.

(** ** Further vocabulary *)

(** The entries [__init__] of the pool keeps of a field table: the fields
    with a default, in table order, each with the object of its [default]
    attribute. *)
Definition defaulted (fields : FieldTable) : list (string * Value) :=
  omap (λ entry : string * MetaField.t,
          if MetaField.has_default entry.2
          then Some (entry.1, MetaField.default_attr entry.2)
          else None) fields.

(** The test of the loop of [release]: a public name that is not a
    defaulted field. *)
Definition strips (self : MemoryPool.t) (attr : string) : bool :=
  negb (startswith attr "_")
  && negb (bool_decide (attr ∈ (MemoryPool._field_defaults self).*1)).

(** A serializer: the sign of a number, as text. *)
Definition sign_text : SerializerFn :=
  λ v, match v with
       | VInt z => Ok (VStr (if z <? 0 then "negative" else "non-negative"))
       | _ => Raise (mkExc TypeError "not a number")
       end.

Definition signed_field : MetaField.t :=
  MetaField.mk "balance" int_type None (Some sign_text) None.

(** A class whose table has a defaulted and a plain field. *)
Definition Account : PyClass :=
  mkClass "Account"
    (Some [("note", plain_field); ("tags", tags_field); ("age", age_field)])
    (λ _, ret tt).

(** An [Account] in use with a public, a private and a defaulted attribute. *)
Definition account_world : World :=
  mkWorld
    [Instance "Account"
       {["scratch" := VInt 1; "_secret" := VInt 2; "tags" := VInt 3]};
     Instance "Account" {["scratch" := VInt 4]}]
    [].



(** A table without defaults, with a serializer on one field. *)
Definition ledger_table : FieldTable :=
  [("note", plain_field); ("balance", signed_field); ("size", size_field)].

(** Two ledger entries and an integer. *)
Definition ledger_world : World :=
  mkWorld
    [Instance "Entry" {["note" := VNone; "balance" := VInt (-10); "size" := VInt 2]};
     Instance "Entry" {["note" := VStr "ok"; "balance" := VStr "n/a"]}]
    [].

(** [lambda: None]. *)
Definition none_factory : Factory := mkFactory (VFunc "<lambda>") (ret VNone).

Definition nickname_field : MetaField.t :=
  MetaField.mk "nickname" int_type None None (Some none_factory).

(** An instance whose ["age"] and ["nickname"] are [None]. *)
Definition unset_world : World :=
  mkWorld [Instance "Person" {["age" := VNone; "nickname" := VNone]}] [].

(** An identity that a later object received again. *)
Definition reused_addresses (obj : Value) : Z :=
  match obj with
  | VRef _ => 4096
  | _ => 64
  end.

(** ** Reasoning about computations *)

Section Loops.
Context {A S : Type}.
Implicit Types (body : S → A → M S) (l : list A).

(** A relation between worlds that every iteration respects is respected by
    the loop. *)
Lemma foldM_preserves (R : World → World → Prop) body l :
  (∀ w, R w w) →
  (∀ w1 w2 w3, R w1 w2 → R w2 w3 → R w1 w3) →
  (∀ s x w, x ∈ l → R w (body s x w).2) →
  ∀ s w, R w (foldM body l s w).2.
Proof.
  intros Hrefl Htrans.
  induction l as [|x l IH]; intros Hbody s w; simpl.
  - apply Hrefl.
  - unfold bind.
    pose proof (Hbody s x w ltac:(left)) as Hx.
    destruct (body s x w) as [[s'|e] w'] eqn:E; simpl in *.
    + eapply Htrans; [exact Hx|].
      apply IH. intros s0 y w0 Hy. apply Hbody. by right.
    + exact Hx.
Qed.

(** A loop whose iterations all return returns. *)
Lemma foldM_returns (P : S → Prop) body l :
  (∀ s x w, x ∈ l → P s → ∃ s', (body s x w).1 = Ok s' ∧ P s') →
  ∀ s w, P s → ∃ s', (foldM body l s w).1 = Ok s' ∧ P s'.
Proof.
  induction l as [|x l IH]; intros Hbody s w Hs; simpl.
  - by exists s.
  - unfold bind.
    destruct (Hbody s x w ltac:(left) Hs) as (s' & Hs' & HP).
    destruct (body s x w) as [r w'] eqn:E; simpl in *. subst r.
    apply IH; [|done]. intros s0 y w0 Hy. apply Hbody. by right.
Qed.

(** A property of the world that every iteration keeps is kept by the loop. *)
Lemma foldM_stable (Q : World → Prop) body l :
  (∀ s x w, x ∈ l → Q w → Q (body s x w).2) →
  ∀ s w, Q w → Q (foldM body l s w).2.
Proof.
  induction l as [|x l IH]; intros Hbody s w Hw; simpl; [done|].
  unfold bind.
  pose proof (Hbody s x w ltac:(left) Hw) as Hx.
  destruct (body s x w) as [[s'|e] w'] eqn:E; simpl in *; [|done].
  apply IH; [|done]. intros s0 y w0 Hy. apply Hbody. by right.
Qed.


End Loops.

Lemma for_each_preserves {A} (R : World → World → Prop) (body : A → M unit) l :
  (∀ w, R w w) →
  (∀ w1 w2 w3, R w1 w2 → R w2 w3 → R w1 w3) →
  (∀ x w, x ∈ l → R w (body x w).2) →
  ∀ w, R w (for_each l body w).2.
Proof.
  intros Hrefl Htrans Hbody w. unfold for_each.
  apply (foldM_preserves R); auto.
Qed.

Lemma for_each_cons {A} (body : A → M unit) x l w :
  for_each (x :: l) body w
  = match body x w with
    | (Ok _, w') => for_each l body w'
    | (Raise e, w') => (Raise e, w')
    end.
Proof. unfold for_each. simpl. unfold bind. by destruct (body x w) as [[[]|e] w']. Qed.

Lemma for_each_returns {A} (body : A → M unit) l :
  (∀ x w, x ∈ l → (body x w).1 = Ok tt) →
  ∀ w, (for_each l body w).1 = Ok tt.
Proof.
  intros Hbody w. unfold for_each.
  destruct (foldM_returns (λ _, True) (λ _ x, body x) l) with (s := tt) (w := w)
    as ([] & H & _); auto.
  intros s x w0 Hx _. exists tt. split; auto.
Qed.

(** ** The store *)

Lemma same_attr_refl f w : same_attr f w w.
Proof. by intros o. Qed.

Lemma same_attr_trans f w1 w2 w3 :
  same_attr f w1 w2 → same_attr f w2 w3 → same_attr f w1 w3.
Proof. intros H1 H2 o. by rewrite H2, H1. Qed.

Lemma appended_refl P w : appended P w w.
Proof. exists []. split; [by rewrite app_nil_r | constructor]. Qed.

Lemma appended_trans P w1 w2 w3 :
  appended P w1 w2 → appended P w2 w3 → appended P w1 w3.
Proof.
  intros (e1 & H1 & F1) (e2 & H2 & F2). exists (e1 ++ e2)%list. split.
  - by rewrite H2, H1, app_assoc.
  - by apply Forall_app.
Qed.

Lemma appended_impl (P Q : Event → Prop) w w' :
  (∀ ev, P ev → Q ev) → appended P w w' → appended Q w w'.
Proof.
  intros HPQ (evs & H & F). exists evs. split; [done|].
  eapply Forall_impl; eauto.
Qed.

Lemma appended_one (P : Event → Prop) ev w w' :
  trace w' = (trace w ++ [ev])%list → P ev → appended P w w'.
Proof. intros H HP. exists [ev]. split; [done | by repeat constructor]. Qed.


Lemma attr_of_insert_other (h : list HeapObj) l c attrs g v o f :
  h !! l = Some (Instance c attrs) → g ≠ f →
  attr_of (<[l := Instance c (<[g := v]> attrs)]> h) o f = attr_of h o f.
Proof.
  intros Hl Hne. unfold attr_of, instance_dict.
  destruct o as [| | | | |l']; try done.
  destruct (decide (l' = l)) as [->|Hll].
  - rewrite list_lookup_insert_eq by (by eapply lookup_lt_Some).
    rewrite Hl. simpl. by rewrite lookup_insert_ne.
  - by rewrite list_lookup_insert_ne.
Qed.

Lemma attr_of_insert_same (h : list HeapObj) l c attrs g v :
  h !! l = Some (Instance c attrs) →
  attr_of (<[l := Instance c (<[g := v]> attrs)]> h) (VRef l) g = Some v.
Proof.
  intros Hl. unfold attr_of, instance_dict.
  rewrite list_lookup_insert_eq by (by eapply lookup_lt_Some).
  simpl. by rewrite lookup_insert_eq.
Qed.

Lemma setattr_same_attr obj g v f w :
  g ≠ f → same_attr f w (setattr obj g v w).2.
Proof.
  intros Hne o. unfold setattr, bind, PyObject_SetAttr.
  destruct obj as [| | | | |l]; try done.
  destruct (heap w !! l) as [[c attrs|items]|] eqn:Hl; try done.
  simpl. by apply attr_of_insert_other.
Qed.

Lemma setattr_trace obj g v w :
  trace (setattr obj g v w).2 = (trace w ++ [EvSet obj g v])%list.
Proof.
  unfold setattr, bind, PyObject_SetAttr.
  destruct obj as [| | | | |l]; try done.
  by destruct (heap w !! l) as [[c attrs|items]|].
Qed.

Lemma get_attr_fast_heap obj name d w :
  heap (FastFieldAccess.get_attr_fast obj name d w).2 = heap w.
Proof.
  unfold FastFieldAccess.get_attr_fast, try_except, bind, PyObject_GetAttr.
  by destruct (attr_of _ _ _).
Qed.

Lemma get_attr_fast_trace obj name d w :
  trace (FastFieldAccess.get_attr_fast obj name d w).2 = (trace w ++ [EvGet obj name])%list.
Proof.
  unfold FastFieldAccess.get_attr_fast, try_except, bind, PyObject_GetAttr.
  by destruct (attr_of _ _ _).
Qed.


(** ** One value *)

Lemma validate_with_type_check_raises value ty v e w :
  v value = Raise e →
  FieldValidator.validate_with_type_check value ty (Some v) w
  = (Raise (mkExc ValueError ("Validation failed: " +:+ exc_msg e)), w).
Proof.
  intros H. unfold FieldValidator.validate_with_type_check, try_except, lift.
  by rewrite H.
Qed.

(** ** Batch validation *)

Lemma validate_field_returns obj entry w :
  (BatchProcessor.validate_field obj entry w).1 = Ok tt.
Proof.
  destruct entry as [g fld]. unfold BatchProcessor.validate_field.
  destruct (MetaField.validator fld); [|done].
  unfold try_except.
  match goal with |- context [match ?m w with _ => _ end] =>
    destruct (m w) as [[[]|e] w'] end; done.
Qed.

Lemma validate_field_same_attr obj g fld f w :
  g ≠ f ∨ MetaField.validator fld = None
  ∨ (∃ v, MetaField.validator fld = Some v ∧ raises_always v) →
  same_attr f w (BatchProcessor.validate_field obj (g, fld) w).2.
Proof.
  intros Hcase o. unfold BatchProcessor.validate_field.
  destruct (MetaField.validator fld) as [v|] eqn:Hv; [|done].
  unfold try_except, bind.
  pose proof (get_attr_fast_heap obj g VMissing w) as Hh.
  destruct (FastFieldAccess.get_attr_fast obj g VMissing w) as [[value|e] w1];
    simpl in Hh; [|simpl; by rewrite Hh].
  destruct (decide (value = VMissing)); simpl; [by rewrite Hh|].
  destruct (v value) as [x|e] eqn:Hx.
  - unfold try_except, lift; simpl.
    destruct Hcase as [Hne|[?|(v' & ? & Hr)]]; simplify_eq.
    + pose proof (setattr_same_attr obj g x f w1 Hne o) as Hs.
      destruct (setattr obj g x w1) as [[[]|e] w2]; simpl in *;
        by rewrite Hs, Hh.
    + destruct (Hr value) as [e He]. congruence.
  - unfold try_except, lift, raise; simpl. by rewrite Hh.
Qed.

Lemma validate_field_appended obj g fld w :
  appended (field_event obj g fld) w (BatchProcessor.validate_field obj (g, fld) w).2.
Proof.
  unfold BatchProcessor.validate_field.
  destruct (MetaField.validator fld) as [v|] eqn:Hv; [|apply appended_refl].
  assert (∀ ev, ev = EvGet obj g ∨ (∃ x, ev = EvSet obj g x) → field_event obj g fld ev)
    as Hfe by (intros ev H; split; [congruence | done]).
  unfold try_except, bind.
  pose proof (get_attr_fast_trace obj g VMissing w) as Ht.
  destruct (FastFieldAccess.get_attr_fast obj g VMissing w) as [[value|e] w1];
    simpl in *; try (eapply appended_one; eauto; fail).
  assert (appended (field_event obj g fld) w w1) as Hu
    by (eapply appended_one; eauto).
  destruct (decide (value = VMissing)); simpl; [done|].
  unfold try_except, lift, raise.
  destruct (v value) as [x|e]; simpl; [|done].
  pose proof (setattr_trace obj g x w1) as Hs.
  assert (appended (field_event obj g fld) w (setattr obj g x w1).2) as Hu2.
  { eapply appended_trans; [exact Hu|]. eapply appended_one; eauto. }
  by destruct (setattr obj g x w1) as [[[]|e] w2].
Qed.

Lemma validate_field_untouched obj g fld f w :
  g ≠ f ∨ MetaField.validator fld = None →
  untouched f w (BatchProcessor.validate_field obj (g, fld) w).2.
Proof.
  intros Hcase. eapply appended_impl; [|apply validate_field_appended].
  intros ev [Hv Hev]. destruct Hcase as [Hne|?]; [|done].
  destruct Hev as [->|[x ->]]; done.
Qed.




Lemma validate_batch_preserves (R : World → World → Prop) objects fields :
  (∀ w, R w w) →
  (∀ w1 w2 w3, R w1 w2 → R w2 w3 → R w1 w3) →
  (∀ obj entry w, entry ∈ fields → R w (BatchProcessor.validate_field obj entry w).2) →
  ∀ w, R w (BatchProcessor.validate_batch objects fields w).2.
Proof.
  intros Hrefl Htrans Hstep w. unfold BatchProcessor.validate_batch.
  apply (foldM_preserves R); auto.
  intros results obj w0 _. unfold bind.
  pose proof (for_each_preserves R (BatchProcessor.validate_field obj) fields
                Hrefl Htrans (λ x w1 Hx, Hstep obj x w1 Hx) w0) as Hf.
  by destruct (for_each fields (BatchProcessor.validate_field obj) w0) as [[[]|e] w'].
Qed.



(** In a dictionary a name has one entry. *)
Lemma field_table_entry_unique (fields : FieldTable) f fld g fld' :
  NoDup fields.*1 → (f, fld) ∈ fields → (g, fld') ∈ fields → g = f → fld' = fld.
Proof.
  intros Hnd H1 H2 ->.
  apply list_elem_of_lookup in H1 as [i Hi], H2 as [j Hj].
  assert (i = j) as ->.
  { eapply NoDup_lookup; [exact Hnd| |]; rewrite list_lookup_fmap.
    - by rewrite Hi. - by rewrite Hj. }
  congruence.
Qed.

(** ** Properties of the specification *)

(** C8: a field without a validator validates every value to itself, and a
    field without a serializer serializes every value to itself. *)
Theorem identity_pass_through (x : Value) (f : MetaField.t) (w : World) :
  (MetaField.validator f = None → fast_validate x f w = (Ok x, w))
  ∧ (MetaField.serializer f = None → fast_serialize x f w = (Ok x, w)).
Proof.
  split; intros H.
  - unfold fast_validate. by rewrite H.
  - unfold fast_serialize. by rewrite H.
Qed.

(** The identity law on a field with neither validator nor serializer. *)
Lemma identity_pass_through_witness :
  fast_validate (VInt 7) plain_field bare_world = (Ok (VInt 7), bare_world)
  ∧ fast_serialize (VStr "x") plain_field bare_world = (Ok (VStr "x"), bare_world).
Proof.
  split.
  - apply (identity_pass_through (VInt 7) plain_field bare_world). reflexivity.
  - apply (identity_pass_through (VStr "x") plain_field bare_world). reflexivity.
Defined.

(** C3, as the spec states it, fails: the validator of ["age"] raises on
    [-5] with the message ["age must be >= 0"], and the error raised by
    [fast_validate] carries another message. *)
Lemma validate_message_counterexample :
  MetaField.validator age_field = Some non_negative
  ∧ non_negative (VInt (-5)) = Raise (mkExc (UserError "NegativeAge") "age must be >= 0")
  ∧ (∃ e', fast_validate (VInt (-5)) age_field bare_world = (Raise e', bare_world)
           ∧ exc_msg e' ≠ "age must be >= 0").
Proof.
  split; [done|]. split; [done|].
  eexists. split; [reflexivity|]. simpl. discriminate.
Qed.

(** C3 (amended): when the validator of a field raises [e] on [x],
    [fast_validate] and [validate_with_type_check] raise a [ValueError]
    whose message is ["Validation failed: "] followed by the message of
    [e]; the class of [e] is not propagated, and the store is unchanged. *)
Theorem validate_wraps_failure
    (f : MetaField.t) (v : ValidatorFn) (x : Value) (e : PyExc) (w : World) :
  MetaField.validator f = Some v →
  v x = Raise e →
  fast_validate x f w
  = (Raise (mkExc ValueError ("Validation failed: " +:+ exc_msg e)), w)
  ∧ FieldValidator.validate_with_type_check x (MetaField.type f) (Some v) w
    = (Raise (mkExc ValueError ("Validation failed: " +:+ exc_msg e)), w).
Proof.
  intros Hv Hx. unfold fast_validate. rewrite Hv.
  split; by apply validate_with_type_check_raises.
Qed.

(** The failure of the validator of ["age"] on [-5], as re-raised. *)
Lemma validate_wraps_failure_witness :
  fast_validate (VInt (-5)) age_field bare_world
  = (Raise (mkExc ValueError "Validation failed: age must be >= 0"), bare_world).
Proof.
  apply (validate_wraps_failure age_field non_negative (VInt (-5))
           (mkExc (UserError "NegativeAge") "age must be >= 0") bare_world);
    reflexivity.
Defined.

(** C7: after [register(T, v)] a lookup of [T] returns [v], whatever was
    registered before, and a strict subtype [S] of [T] that has no entry of
    its own still has none. *)
Theorem registry_exact_lookup
    (T S : PyType) (v : ValidatorFn) (reg : TypeDispatcher.Registry) :
  TypeDispatcher.get_type_validator T
    (TypeDispatcher.register_type_validator T v reg) = Some v
  ∧ (S ≠ T → isinstance S T = true →
     TypeDispatcher.get_type_validator S reg = None →
     TypeDispatcher.get_type_validator S
       (TypeDispatcher.register_type_validator T v reg) = None).
Proof.
  unfold TypeDispatcher.get_type_validator, TypeDispatcher.register_type_validator.
  split.
  - apply lookup_insert_eq.
  - intros Hne _ Hnone. by rewrite lookup_insert_ne.
Qed.

(** [Point] registered twice, and its subtype [ColoredPoint] never. *)
Lemma registry_exact_lookup_witness :
  TypeDispatcher.get_type_validator Point
    (TypeDispatcher.register_type_validator Point absolute
       (TypeDispatcher.register_type_validator Point non_negative
          TypeDispatcher.TYPE_VALIDATORS)) = Some absolute
  ∧ TypeDispatcher.get_type_validator ColoredPoint
      (TypeDispatcher.register_type_validator Point absolute
         (TypeDispatcher.register_type_validator Point non_negative
            TypeDispatcher.TYPE_VALIDATORS)) = None.
Proof.
  split.
  - apply (registry_exact_lookup Point ColoredPoint).
  - apply (registry_exact_lookup Point ColoredPoint).
    + discriminate.
    + reflexivity.
    + unfold TypeDispatcher.get_type_validator, TypeDispatcher.register_type_validator.
      by rewrite lookup_insert_ne.
Defined.



(** After the fault on ["locked"] the batch went on: ["size"], the last
    field, was normalized on both instances. *)
Example validate_batch_continues :
  let w' := (BatchProcessor.validate_batch [VRef 0%nat; VRef 1%nat] mixed_table two_records).2 in
  attr_of (heap w') (VRef 0%nat) "locked" = Some (VInt 1)
  ∧ attr_of (heap w') (VRef 0%nat) "size" = Some (VInt 3)
  ∧ attr_of (heap w') (VRef 1%nat) "locked" = Some (VInt 4)
  ∧ attr_of (heap w') (VRef 1%nat) "size" = Some (VInt 6).
Proof. vm_compute. done. Qed.

(** C10: for a field [f] without a validator, [validate_batch] performs no
    attribute read and no attribute write under the name [f], and the
    attribute [f] of every object is the same after the call as before. *)
Theorem validate_batch_frame
    (objects : list Value) (fields : FieldTable) (f : string) (fld : MetaField.t)
    (w : World) :
  NoDup fields.*1 →
  (f, fld) ∈ fields →
  MetaField.validator fld = None →
  untouched f w (BatchProcessor.validate_batch objects fields w).2
  ∧ same_attr f w (BatchProcessor.validate_batch objects fields w).2.
Proof.
  intros Hnd Hin Hv.
  assert (∀ g fld', (g, fld') ∈ fields → g ≠ f ∨ MetaField.validator fld' = None) as Hcase.
  { intros g fld' Hin'. destruct (decide (g = f)) as [->|]; [|by left].
    right. by rewrite (field_table_entry_unique fields f fld f fld' Hnd Hin Hin' eq_refl). }
  split.
  - apply (validate_batch_preserves (untouched f)).
    + apply appended_refl.
    + apply appended_trans.
    + intros obj [g fld'] w0 Hin'. apply validate_field_untouched. by apply Hcase.
  - apply (validate_batch_preserves (same_attr f)).
    + apply same_attr_refl.
    + apply same_attr_trans.
    + intros obj [g fld'] w0 Hin'. apply validate_field_same_attr.
      destruct (Hcase g fld' Hin') as [?|?]; auto.
Qed.

(** The field ["note"] of the same table has no validator. *)
Lemma validate_batch_frame_witness :
  untouched "note" two_records
    (BatchProcessor.validate_batch [VRef 0%nat; VRef 1%nat] mixed_table two_records).2
  ∧ same_attr "note" two_records
      (BatchProcessor.validate_batch [VRef 0%nat; VRef 1%nat] mixed_table two_records).2.
Proof.
  apply (validate_batch_frame [VRef 0%nat; VRef 1%nat] mixed_table "note" plain_field
           two_records).
  - apply (bool_decide_unpack _). vm_compute. exact I.
  - repeat constructor.
  - reflexivity.
Defined.

(** ** Batch serialization *)

(** A field whose attribute is absent on the object is left out of the
    output, whether or not it has a default: the read raises, and the
    [except] clause continues with the next field. *)
Lemma serialize_field_absent obj exclude_none obj_dict g fld w :
  attr_of (heap w) obj g = None →
  BatchProcessor.serialize_field obj exclude_none obj_dict (g, fld) w
  = (Ok obj_dict, log (EvGet obj g) w).
Proof.
  intros H. unfold BatchProcessor.serialize_field, try_except, bind, PyObject_GetAttr.
  by rewrite H.
Qed.

(** C1, at the scenario of the spec: the field ["age"] has the default
    factory [lambda: 0] and the instance has no attribute ["age"];
    [serialize_batch] returns one mapping, and it is empty. *)
Theorem serialize_batch_omits_absent_default :
  MetaField.has_default age_field = true
  ∧ attr_of (heap bare_world) (VRef 0%nat) "age" = None
  ∧ BatchProcessor.serialize_batch [VRef 0%nat] age_table false bare_world
    = (Ok [[]], log (EvGet (VRef 0%nat) "age") bare_world)
  ∧ MetaField.produce age_field bare_world = (Ok (VInt 0), bare_world).
Proof. repeat split. Qed.

(** The default is produced only when the attribute is present and holds
    [None]. *)
Example serialize_batch_default_for_none :
  (BatchProcessor.serialize_batch [VRef 0%nat] age_table false
     (mkWorld [Instance "Person" {["age" := VNone]}] [])).1
  = Ok [[("age", VInt 0)]].
Proof. reflexivity. Qed.

(** ** The instance pool *)

Lemma list_pop_snoc {A} (l : list A) x : list_pop (l ++ [x]) = Some (x, l).
Proof. unfold list_pop. by rewrite reverse_snoc, reverse_involutive. Qed.

Lemma list_pop_inv {A} (l : list A) :
  (l = [] ∧ list_pop l = None) ∨ (∃ x r, l = (r ++ [x])%list ∧ list_pop l = Some (x, r)).
Proof.
  destruct l as [|y l] using rev_ind.
  - by left.
  - right. exists y, l. split; [done | apply list_pop_snoc].
Qed.

Lemma reset_defaults_returns instance (defaults : list (string * Value)) w :
  (for_each defaults
     (λ entry, try_except (setattr instance entry.1 entry.2) Exception (λ _, ret tt)) w).1
  = Ok tt.
Proof.
  apply for_each_returns. intros [n d] w0 _. unfold try_except.
  by destruct (setattr instance _ _ w0) as [[[]|e] w'].
Qed.

(** [acquire] never raises: it returns the last released instance and
    shortens the free list, or allocates. *)
Lemma acquire_returns (p : MemoryPool.t) (w : World) :
  ∃ instance w',
    MemoryPool.acquire p w
    = (Ok (instance, MemoryPool.with_pool p (removelast (MemoryPool._pool p))), w').
Proof.
  unfold MemoryPool.acquire.
  destruct (list_pop_inv (MemoryPool._pool p)) as [[Hl ->]|(x & r & Hl & ->)].
  - unfold bind, object_new, ret. rewrite Hl. simpl.
    destruct p; simpl in *; subst. eauto.
  - unfold bind.
    pose proof (reset_defaults_returns x (MemoryPool._field_defaults p) w) as Hr.
    destruct (for_each _ _ w) as [r0 w']. simpl in Hr. subst r0.
    unfold ret. rewrite Hl, removelast_last. eauto.
Qed.

Lemma strip_returns (self : MemoryPool.t) obj names w :
  (for_each names
     (λ attr,
        if negb (startswith attr "_")
           && negb (bool_decide (attr ∈ (MemoryPool._field_defaults self).*1))
        then try_except (delattr obj attr) Exception (λ _, ret tt)
        else ret tt) w).1
  = Ok tt.
Proof.
  apply for_each_returns. intros attr w0 _.
  destruct (negb _ && negb _); [|done]. unfold try_except.
  by destruct (delattr obj attr w0) as [[[]|e] w'].
Qed.

(** [release] never raises: below capacity the instance joins the free
    list, at capacity nothing happens at all. *)
Lemma release_returns (p : MemoryPool.t) (obj : Value) (w : World) :
  (MemoryPool.size p < MemoryPool._max_size p ∧
   ∃ w', MemoryPool.release p obj w
         = (Ok (MemoryPool.with_pool p (MemoryPool._pool p ++ [obj])), w'))
  ∨ (MemoryPool._max_size p ≤ MemoryPool.size p ∧ MemoryPool.release p obj w = (Ok p, w)).
Proof.
  unfold MemoryPool.release, MemoryPool.size.
  destruct (Z.ltb_spec (Z.of_nat (length (MemoryPool._pool p))) (MemoryPool._max_size p)).
  - left. split; [done|]. unfold bind, dir.
    match goal with |- context [for_each ?names ?body w] =>
      pose proof (strip_returns p obj names w) as Hr;
      destruct (for_each names body w) as [r0 w'] end.
    simpl in Hr. subst r0. unfold ret. eauto.
  - right. by split.
Qed.

Lemma init_pool cls max_size p :
  MemoryPool.__init__ cls max_size = Ok p →
  MemoryPool._pool p = [] ∧ MemoryPool._max_size p = max_size
  ∧ MemoryPool._model_class p = cls.
Proof.
  unfold MemoryPool.__init__, to_c_int. case_bool_decide; [|done].
  intros [= <-]. done.
Qed.

Lemma run_op_inv max_size st op :
  pool_inv max_size st.1 → pool_inv max_size (run_op st op).1.
Proof.
  destruct st as [p w]. intros [Hm Hs]. unfold MemoryPool.size in *. simpl in *.
  destruct op as [|obj|]; simpl.
  - destruct (acquire_returns p w) as (i & w' & ->). simpl.
    split; [done|]. unfold MemoryPool.size. simpl.
    destruct (MemoryPool._pool p) as [|y l] using rev_ind; [simpl; lia|].
    rewrite removelast_last. rewrite length_app in Hs. simpl in Hs. lia.
  - destruct (release_returns p obj w) as [[Hlt [w' ->]]|[Hge ->]]; simpl.
    + split; [done|]. unfold MemoryPool.size in *. simpl.
      rewrite length_app. simpl. lia.
    + by split.
  - split; [done|]. unfold MemoryPool.size. simpl. lia.
Qed.

Lemma run_ops_inv max_size ops st :
  pool_inv max_size st.1 → pool_inv max_size (run_ops ops st).1.
Proof.
  revert st. induction ops as [|op ops IH]; intros st H; simpl; [done|].
  apply IH. by apply run_op_inv.
Qed.

Lemma round_trip_size (p : MemoryPool.t) (w : World) :
  (length (MemoryPool._pool p) ≤ 1)%nat →
  MemoryPool._max_size (round_trip (p, w)).1 = MemoryPool._max_size p
  ∧ MemoryPool.size (round_trip (p, w)).1
    = if decide (MemoryPool._max_size p ≤ 0) then 0 else 1.
Proof.
  intros Hlen. unfold round_trip. simpl.
  destruct (acquire_returns p w) as (i & w' & ->). simpl.
  assert (removelast (MemoryPool._pool p) = []) as Hnil.
  { destruct (MemoryPool._pool p) as [|y [|z l]]; simpl in *; [done|done|lia]. }
  rewrite Hnil.
  destruct (release_returns (MemoryPool.with_pool p []) i w')
    as [[Hlt [w'' ->]]|[Hge ->]]; unfold MemoryPool.size in *; simpl in *;
    (split; [done|]); case_decide; lia.
Qed.

Lemma round_trips_size (n : nat) (p : MemoryPool.t) (w : World) :
  MemoryPool._pool p = [] →
  MemoryPool._max_size (round_trips n (p, w)).1 = MemoryPool._max_size p
  ∧ MemoryPool.size (round_trips n (p, w)).1
    = if decide (n = 0%nat ∨ MemoryPool._max_size p ≤ 0) then 0 else 1.
Proof.
  intros Hp. induction n as [|n [IHm IHs]]; simpl.
  - split; [done|]. unfold MemoryPool.size. by rewrite Hp.
  - unfold round_trips in *.
    destruct (Nat.iter n round_trip (p, w)) as [q w'] eqn:E. simpl in *.
    destruct (round_trip_size q w') as [Hm Hs].
    { unfold MemoryPool.size in IHs. case_decide; lia. }
    rewrite Hm, Hs, IHm. split; [done|].
    repeat case_decide; try lia; try tauto.
Qed.

Lemma releases_size max_size (objs : list Value) st :
  pool_inv max_size st.1 →
  MemoryPool.size (run_ops (OpRelease <$> objs) st).1
  = Z.min (MemoryPool.size st.1 + Z.of_nat (length objs)) (Z.max 0 max_size).
Proof.
  revert st. induction objs as [|obj objs IH]; intros [p w] [Hm Hs]; simpl in *.
  - lia.
  - rewrite IH.
    + destruct (release_returns p obj w) as [[Hlt [w' ->]]|[Hge ->]];
        unfold MemoryPool.size in *; simpl in *.
      * rewrite length_app. simpl. lia.
      * lia.
    + apply (run_op_inv max_size (p, w) (OpRelease obj)). by split.
Qed.

(** C5, as the spec states it, fails: two round trips on a fresh pool of
    capacity 2 leave one free instance, not two, and three round trips
    leave one, not the capacity. *)
Lemma round_trip_count_counterexample :
  ∃ p, MemoryPool.__init__ Tagged 2 = Ok p
       ∧ MemoryPool.size (round_trips 2 (p, bare_world)).1 = 1
       ∧ MemoryPool.size (round_trips 3 (p, bare_world)).1 = 1.
Proof. eexists. split; [reflexivity|]. split; vm_compute; reflexivity. Qed.

(** C5 (amended): for a pool created with capacity [max_size], after any
    sequence of acquire, release and clear the number of free instances is
    at most [max_size] (at most 0 when [max_size] is negative); [n] round
    trips [release(acquire())] from the empty pool leave one free instance
    when [n > 0] and [max_size > 0], and none otherwise; [n] releases in a
    row leave [min n max_size] when [max_size >= 0]; a release at capacity
    changes neither the pool nor the store; with [max_size = 0] the pool
    stays empty. *)
Theorem pool_size_bounded (cls : PyClass) (max_size : Z) (p : MemoryPool.t) :
  MemoryPool.__init__ cls max_size = Ok p →
  (∀ ops w, MemoryPool.size (run_ops ops (p, w)).1 ≤ Z.max 0 max_size)
  ∧ (∀ n w, MemoryPool.size (round_trips n (p, w)).1
            = if decide (n = 0%nat ∨ max_size ≤ 0) then 0 else 1)
  ∧ (∀ objs w, MemoryPool.size (run_ops (OpRelease <$> objs) (p, w)).1
               = Z.min (Z.of_nat (length objs)) (Z.max 0 max_size))
  ∧ (∀ ops obj w,
       max_size ≤ MemoryPool.size (run_ops ops (p, w)).1 →
       MemoryPool.release (run_ops ops (p, w)).1 obj (run_ops ops (p, w)).2
       = (Ok (run_ops ops (p, w)).1, (run_ops ops (p, w)).2))
  ∧ (max_size = 0 → ∀ ops w, MemoryPool.size (run_ops ops (p, w)).1 = 0).
Proof.
  intros Hinit. destruct (init_pool _ _ _ Hinit) as (Hpool & Hmax & _).
  assert (pool_inv max_size p) as Hinv.
  { split; [done|]. unfold MemoryPool.size. rewrite Hpool. simpl. lia. }
  split; [|split; [|split; [|split]]].
  - intros ops w. by destruct (run_ops_inv max_size ops (p, w) Hinv).
  - intros n w. destruct (round_trips_size n p w Hpool) as [_ ->]. by rewrite Hmax.
  - intros objs w. rewrite (releases_size max_size objs (p, w) Hinv).
    unfold MemoryPool.size. simpl. rewrite Hpool. simpl. lia.
  - intros ops obj w Hcap.
    destruct (run_ops_inv max_size ops (p, w) Hinv) as [Hm _].
    destruct (release_returns (run_ops ops (p, w)).1 obj (run_ops ops (p, w)).2)
      as [[Hlt _]|[_ ->]]; [lia|done].
  - intros -> ops w.
    destruct (run_ops_inv 0 ops (p, w) Hinv) as [_ Hs].
    unfold MemoryPool.size in *. lia.
Qed.

(** A pool of capacity 2 under a mixed sequence, five round trips and
    three releases in a row. *)
Lemma pool_size_bounded_witness :
  ∃ p, MemoryPool.__init__ Tagged 2 = Ok p
       ∧ MemoryPool.size
           (run_ops [OpRelease (VRef 0%nat); OpRelease (VRef 1%nat);
                     OpRelease (VRef 0%nat); OpAcquire; OpClear;
                     OpRelease (VRef 1%nat)] (p, tagged_world)).1 ≤ 2
       ∧ MemoryPool.size (round_trips 5 (p, tagged_world)).1 = 1
       ∧ MemoryPool.size
           (run_ops (OpRelease <$> [VRef 0%nat; VRef 1%nat; VRef 0%nat])
              (p, tagged_world)).1 = 2.
Proof.
  eexists. split; [reflexivity|].
  destruct (pool_size_bounded Tagged 2 _ eq_refl) as (Hbound & Htrips & Hrel & _).
  split; [apply Hbound|]. split; [apply (Htrips 5%nat)|].
  apply (Hrel [VRef 0%nat; VRef 1%nat; VRef 0%nat]).
Defined.

(** C9: on a pool whose free list is empty, [acquire] returns a new
    instance with an empty attribute dictionary: no initializer has run, no
    attribute has been set (the trace is unchanged), the pool is unchanged,
    and the instance stores no attribute of its own, so none of its
    fields. *)
Theorem acquire_empty_pool_allocates (p : MemoryPool.t) (w : World) :
  MemoryPool._pool p = [] →
  MemoryPool.acquire p w
  = (Ok (VRef (length (heap w)), p),
     mkWorld (heap w ++ [Instance (cls_name (MemoryPool._model_class p)) ∅]) (trace w))
  ∧ (∀ name, attr_of (heap (MemoryPool.acquire p w).2) (VRef (length (heap w))) name = None).
Proof.
  intros Hp.
  assert (MemoryPool.acquire p w
          = (Ok (VRef (length (heap w)), p),
             mkWorld (heap w ++ [Instance (cls_name (MemoryPool._model_class p)) ∅])
               (trace w))) as Hacq.
  { unfold MemoryPool.acquire. by rewrite Hp. }
  split; [done|].
  intros name. rewrite Hacq. unfold attr_of, instance_dict. simpl.
  rewrite lookup_app_r by lia. by rewrite Nat.sub_diag.
Qed.

(** A fresh pool for [Tagged]: the instance it allocates has no ["tags"]. *)
Lemma acquire_empty_pool_allocates_witness :
  ∃ p, MemoryPool.__init__ Tagged 2 = Ok p
       ∧ MemoryPool.acquire p tagged_world
         = (Ok (VRef 3%nat, p),
            mkWorld (heap tagged_world ++ [Instance "Tagged" ∅]) [])
       ∧ attr_of (heap (MemoryPool.acquire p tagged_world).2) (VRef 3%nat) "tags" = None.
Proof.
  eexists. split; [reflexivity|].
  destruct (acquire_empty_pool_allocates
              {| MemoryPool._pool := []; MemoryPool._model_class := Tagged;
                 MemoryPool._max_size := 2;
                 MemoryPool._field_defaults := [("tags", VFunc "list")] |}
              tagged_world eq_refl) as (Hacq & Hno).
  split; [exact Hacq | exact (Hno "tags")].
Defined.

(** The normal construction of the same class runs the initializer, which
    sets the defaulted field. *)
Example construct_sets_defaults :
  ∃ w', construct Tagged tagged_world = (Ok (VRef 3%nat), w')
        ∧ attr_of (heap w') (VRef 3%nat) "tags" = Some (VRef 4%nat)
        ∧ heap w' !! 4%nat = Some (ListObj []).
Proof. eexists. split; [reflexivity|]. split; reflexivity. Qed.

(** C2, at a failing input: two instances of a class whose field ["tags"]
    has the default factory [list] are released and acquired again.  Both
    come back with ["tags"] bound to the very object captured when the pool
    was created, the factory itself; the factory has not been called (the
    store holds the same three objects), whereas [produce] returns a new
    list. *)
Theorem acquire_shares_default :
  ∃ p w',
    MemoryPool.__init__ Tagged 4 = Ok p
    ∧ release_two_acquire_two p tagged_world = (Ok (VRef 1%nat, VRef 0%nat), w')
    ∧ attr_of (heap w') (VRef 1%nat) "tags" = Some (VFunc "list")
    ∧ attr_of (heap w') (VRef 0%nat) "tags" = Some (VFunc "list")
    ∧ length (heap w') = 3%nat
    ∧ (MetaField.produce tags_field w').1 = Ok (VRef 3%nat)
    ∧ heap (MetaField.produce tags_field w').2 !! 3%nat = Some (ListObj []).
Proof.
  eexists. eexists. split; [reflexivity|]. split; [vm_compute; reflexivity|].
  repeat split.
Qed.

(** ** The cached descriptor *)

Lemma setattr_inv obj name v w w' :
  setattr obj name v w = (Ok tt, w') →
  ∃ l c attrs, obj = VRef l ∧ heap w !! l = Some (Instance c attrs)
    ∧ w' = set_heap (<[l := Instance c (<[name := v]> attrs)]> (heap w))
             (log (EvSet obj name v) w).
Proof.
  unfold setattr, bind, PyObject_SetAttr, ret.
  destruct obj as [| | | | |l]; try done.
  destruct (heap w !! l) as [[c attrs|items]|] eqn:Hl; try done.
  intros [= <-]. eauto 6.
Qed.

Lemma setattr_instance l c attrs name v w :
  heap w !! l = Some (Instance c attrs) →
  setattr (VRef l) name v w
  = (Ok tt, set_heap (<[l := Instance c (<[name := v]> attrs)]> (heap w))
              (log (EvSet (VRef l) name v) w)).
Proof. intros H. unfold setattr, bind, PyObject_SetAttr, ret. by rewrite H. Qed.

Lemma try_setattr_instance l c attrs name v w :
  heap w !! l = Some (Instance c attrs) →
  try_except (setattr (VRef l) name v) Exception (λ _, ret tt) w
  = (Ok tt, set_heap (<[l := Instance c (<[name := v]> attrs)]> (heap w))
              (log (EvSet (VRef l) name v) w)).
Proof. intros H. unfold try_except. by rewrite (setattr_instance _ _ _ _ _ _ H). Qed.

(** With an identity that fits a C [int]: the validator [abs] accepts
    [-3], the write succeeds, and the read that follows returns [3]. *)
Lemma descriptor_set_get_counterexample :
  absolute (VInt (-3)) = Ok (VInt 3)
  ∧ ∃ d' w',
      OptimizedDescriptor.__set__ low_addresses size_descriptor (VRef 0%nat) (VInt (-3))
        shadow_world = (Ok d', w')
      ∧ OptimizedDescriptor.__get__ low_addresses d' (VRef 0%nat) w'
        = (Ok (OptimizedDescriptor.RetValue (VInt 3), d'), w')
      ∧ VInt 3 ≠ VInt (-3).
Proof.
  split; [reflexivity|]. eexists. eexists.
  split; [vm_compute; reflexivity|]. split; [vm_compute; reflexivity | discriminate].
Qed.

(** The accessors when the identity fits a C [int].  When [__set__]
    returns, the read that follows returns
    the value the validator returned for [v] ([v] itself when the field has
    no validator), which is also the shadow attribute.  After
    [clear_cache], a read on an instance whose identity fits a C [int]
    returns the shadow attribute when it is there; when it is absent and
    the field has a default it produces one, stores it as the shadow
    attribute and returns it (the factory leaving the instance in the
    store); when it is absent and there is no default it raises
    [AttributeError].  None of the three depends on what the cache held
    before. *)
Theorem descriptor_cache_coherence
    (py_id : Value → Z) (d : OptimizedDescriptor.t) (obj : Value) (w : World) :
  (∀ v d' w',
     OptimizedDescriptor.__set__ py_id d obj v w = (Ok d', w') →
     ∃ v', match MetaField.validator (OptimizedDescriptor.field d) with
           | Some validator => validator v = Ok v'
           | None => v' = v
           end
           ∧ attr_of (heap w') obj (OptimizedDescriptor.shadow d) = Some v'
           ∧ OptimizedDescriptor.__get__ py_id d' obj w'
             = (Ok (OptimizedDescriptor.RetValue v', d'), w'))
  ∧ (∀ attrs k,
       instance_dict (heap w) obj = Some attrs →
       to_c_int (py_id obj) = Ok k →
       let read := log (EvGet obj (OptimizedDescriptor.shadow d)) w in
       let fresh := OptimizedDescriptor.clear_cache d in
       (∀ v, attrs !! OptimizedDescriptor.shadow d = Some v →
          OptimizedDescriptor.__get__ py_id fresh obj w
          = (Ok (OptimizedDescriptor.RetValue v,
                 OptimizedDescriptor.with_cache d {[k := v]}), read))
       ∧ (∀ v w1,
            attrs !! OptimizedDescriptor.shadow d = None →
            MetaField.has_default (OptimizedDescriptor.field d) = true →
            MetaField.produce (OptimizedDescriptor.field d) read = (Ok v, w1) →
            is_Some (instance_dict (heap w1) obj) →
            ∃ w2, OptimizedDescriptor.__get__ py_id fresh obj w
                  = (Ok (OptimizedDescriptor.RetValue v,
                         OptimizedDescriptor.with_cache d {[k := v]}), w2)
                  ∧ attr_of (heap w2) obj (OptimizedDescriptor.shadow d) = Some v)
       ∧ (attrs !! OptimizedDescriptor.shadow d = None →
          MetaField.has_default (OptimizedDescriptor.field d) = false →
          ∃ e, OptimizedDescriptor.__get__ py_id fresh obj w = (Raise e, read)
               ∧ exc_class e = AttributeError)).
Proof.
  split.
  - intros v d' w'. unfold OptimizedDescriptor.__set__, bind, lift.
    destruct (to_c_int (py_id obj)) as [k|e] eqn:Hk; [|done].
    assert (∀ v', setattr obj (OptimizedDescriptor.shadow d) v' w = (Ok tt, w') →
              d' = OptimizedDescriptor.with_cache d
                     (<[k := v']> (OptimizedDescriptor._cache d)) →
              attr_of (heap w') obj (OptimizedDescriptor.shadow d) = Some v'
              ∧ OptimizedDescriptor.__get__ py_id d' obj w'
                = (Ok (OptimizedDescriptor.RetValue v', d'), w')) as Hgo.
    { intros v' Hset ->.
      apply setattr_inv in Hset as (l & c & attrs & -> & Hl & ->). split.
      - simpl. by apply attr_of_insert_same.
      - unfold OptimizedDescriptor.__get__, bind, lift. simpl. rewrite Hk.
        by rewrite lookup_insert_eq. }
    destruct (MetaField.validator (OptimizedDescriptor.field d)) as [validator|].
    + destruct (validator v) as [v'|e] eqn:Hv; [|done].
      destruct (setattr obj (OptimizedDescriptor.shadow d) v' w) as [[[]|e] w1] eqn:Hs;
        [|done].
      unfold ret. intros [= <- <-]. exists v'. split; [done|]. by apply Hgo.
    + unfold ret at 1.
      destruct (setattr obj (OptimizedDescriptor.shadow d) v w) as [[[]|e] w1] eqn:Hs;
        [|done].
      unfold ret. intros [= <- <-]. exists v. split; [done|]. by apply Hgo.
  - intros attrs k Hdict Hk read fresh.
    assert (obj ≠ VNone) as Hobj by (by intros ->).
    assert (attr_of (heap w) obj (OptimizedDescriptor.shadow d)
            = attrs !! OptimizedDescriptor.shadow d) as Hattr
      by (unfold attr_of; by rewrite Hdict).
    assert (OptimizedDescriptor.__get__ py_id fresh obj w
            = try_except
                (let! value := PyObject_GetAttr obj (OptimizedDescriptor.shadow d) in
                 ret (OptimizedDescriptor.RetValue value,
                      OptimizedDescriptor.with_cache d {[k := value]}))
                AttributeError
                (λ _,
                   if MetaField.has_default (OptimizedDescriptor.field d) then
                     let! value := MetaField.produce (OptimizedDescriptor.field d) in
                     let! _ := setattr obj (OptimizedDescriptor.shadow d) value in
                     ret (OptimizedDescriptor.RetValue value,
                          OptimizedDescriptor.with_cache d {[k := value]})
                   else
                     λ w0, (Raise (mkExc AttributeError
                                     ("'" +:+ type_name (heap w0) obj
                                      +:+ "' has no attribute '"
                                      +:+ OptimizedDescriptor.name d +:+ "'")), w0))
                w) as Hget.
    { unfold OptimizedDescriptor.__get__.
      destruct (decide (obj = VNone)); [done|].
      unfold bind at 1, lift. rewrite Hk. done. }
    split; [|split].
    + intros v Hv. rewrite Hget. unfold try_except, bind, PyObject_GetAttr.
      by rewrite Hattr, Hv.
    + intros v w1 Hnone Hdef Hprod [attrs1 Hinst]. rewrite Hget.
      unfold try_except, bind at 1, PyObject_GetAttr. rewrite Hattr, Hnone. simpl.
      rewrite Hdef. unfold bind at 1. fold read. rewrite Hprod.
      destruct obj as [| | | | |l]; try done.
      unfold instance_dict in Hinst.
      destruct (heap w1 !! l) as [[c a1|items]|] eqn:Hl; try done.
      unfold bind. rewrite (setattr_instance l c a1 _ v w1 Hl). unfold ret.
      eexists. split; [reflexivity|]. simpl. by apply attr_of_insert_same.
    + intros Hnone Hdef. rewrite Hget.
      unfold try_except, bind at 1, PyObject_GetAttr. rewrite Hattr, Hnone. simpl.
      rewrite Hdef. eauto.
Qed.

(** A write followed by a read, and reads after [clear_cache] with the
    shadow attribute present and absent. *)
Lemma descriptor_cache_coherence_witness :
  (∃ d' w',
     OptimizedDescriptor.__set__ low_addresses age_descriptor (VRef 1%nat) (VInt 5)
       shadow_world = (Ok d', w')
     ∧ OptimizedDescriptor.__get__ low_addresses d' (VRef 1%nat) w'
       = (Ok (OptimizedDescriptor.RetValue (VInt 5), d'), w'))
  ∧ OptimizedDescriptor.__get__ low_addresses
      (OptimizedDescriptor.clear_cache stale_descriptor) (VRef 0%nat) shadow_world
    = (Ok (OptimizedDescriptor.RetValue (VInt 7),
           OptimizedDescriptor.with_cache stale_descriptor {[4096 := VInt 7]}),
       log (EvGet (VRef 0%nat) "_age") shadow_world)
  ∧ (∃ w2,
       OptimizedDescriptor.__get__ low_addresses
         (OptimizedDescriptor.clear_cache stale_descriptor) (VRef 1%nat) shadow_world
       = (Ok (OptimizedDescriptor.RetValue (VInt 0),
              OptimizedDescriptor.with_cache stale_descriptor {[4112 := VInt 0]}), w2)
       ∧ attr_of (heap w2) (VRef 1%nat) "_age" = Some (VInt 0)).
Proof.
  split; [|split].
  - destruct (descriptor_cache_coherence low_addresses age_descriptor (VRef 1%nat)
                shadow_world) as [Hset _].
    assert (∃ d' w',
              OptimizedDescriptor.__set__ low_addresses age_descriptor (VRef 1%nat)
                (VInt 5) shadow_world = (Ok d', w')) as (d' & w' & Hs)
      by (eexists; eexists; vm_compute; reflexivity).
    exists d', w'. split; [exact Hs|].
    destruct (Hset (VInt 5) d' w' Hs) as (v' & Hv & _ & Hget).
    vm_compute in Hv. injection Hv as <-. exact Hget.
  - destruct (descriptor_cache_coherence low_addresses stale_descriptor (VRef 0%nat)
                shadow_world) as [_ Hclear].
    destruct (Hclear {["_age" := VInt 7]} 4096 eq_refl eq_refl) as (Hread & _).
    apply Hread. reflexivity.
  - destruct (descriptor_cache_coherence low_addresses stale_descriptor (VRef 1%nat)
                shadow_world) as [_ Hclear].
    destruct (Hclear ∅ 4112 eq_refl eq_refl) as (_ & Hdefault & _).
    apply (Hdefault (VInt 0) (log (EvGet (VRef 1%nat) "_age") shadow_world)).
    + reflexivity.
    + reflexivity.
    + reflexivity.
    + eexists. reflexivity.
Defined.

(** Without [clear_cache] the cached entry wins over the shadow attribute. *)
Example descriptor_stale_read :
  OptimizedDescriptor.__get__ low_addresses stale_descriptor (VRef 0%nat) shadow_world
  = (Ok (OptimizedDescriptor.RetValue (VInt 99), stale_descriptor), shadow_world)
  ∧ attr_of (heap shadow_world) (VRef 0%nat) "_age" = Some (VInt 7).
Proof. split; reflexivity. Qed.

(** C6, at a failing input: the field ["note"] has no validator and the
    instance has an address as a 64-bit allocator hands them out, which
    does not fit the C [int] the accessors convert [id(obj)] to.
    [__set__] raises [OverflowError] and writes nothing, so the read that
    follows does not return the value: it raises too, and so does the read
    after [clear_cache], although the shadow attribute is there. *)
Theorem descriptor_set_get_overflows :
  INT_MAX < high_addresses (VRef 0%nat)
  ∧ MetaField.validator (OptimizedDescriptor.field note_descriptor) = None
  ∧ attr_of (heap note_world) (VRef 0%nat) "_note" = Some (VInt 7)
  ∧ (∃ e, OptimizedDescriptor.__set__ high_addresses note_descriptor (VRef 0%nat)
            (VInt 5) note_world = (Raise e, note_world)
          ∧ exc_class e = OverflowError)
  ∧ (∃ e, OptimizedDescriptor.__get__ high_addresses note_descriptor (VRef 0%nat)
            note_world = (Raise e, note_world)
          ∧ exc_class e = OverflowError)
  ∧ (∃ e, OptimizedDescriptor.__get__ high_addresses
            (OptimizedDescriptor.clear_cache note_descriptor) (VRef 0%nat)
            note_world = (Raise e, note_world)
          ∧ exc_class e = OverflowError).
Proof.
  split; [reflexivity|]. split; [reflexivity|]. split; [reflexivity|].
  split; [|split]; eexists; split; reflexivity.
Qed.

(** ** Defaults on the pool-hit path *)

(** What the loop of [acquire] does to an instance: every name of
    [_field_defaults] ends up bound to the object stored under it, the other
    attributes are kept, and no object is allocated. *)
Lemma reset_defaults_effect l (defaults : list (string * Value)) :
  NoDup defaults.*1 →
  ∀ w, is_Some (instance_dict (heap w) (VRef l)) →
  let w' := (for_each defaults
               (λ entry, try_except (setattr (VRef l) entry.1 entry.2)
                           Exception (λ _, ret tt)) w).2 in
  is_Some (instance_dict (heap w') (VRef l))
  ∧ length (heap w') = length (heap w)
  ∧ (∀ name d, (name, d) ∈ defaults → attr_of (heap w') (VRef l) name = Some d)
  ∧ (∀ name, name ∉ defaults.*1 →
       attr_of (heap w') (VRef l) name = attr_of (heap w) (VRef l) name).
Proof.
  induction defaults as [|[n d] defaults IH]; intros Hnd w Hinst; cbv zeta.
  - simpl. split; [done|]. split; [done|]. split; [|done].
    intros name d Hin. by apply elem_of_nil in Hin.
  - rewrite fmap_cons in Hnd. apply NoDup_cons in Hnd as [Hn Hnd]. simpl in Hn.
    rewrite for_each_cons. cbv beta. cbn [fst snd].
    destruct Hinst as [attrs Hinst]. unfold instance_dict in Hinst.
    destruct (heap w !! l) as [[c a|items]|] eqn:Hl; try done.
    rewrite (try_setattr_instance l c a n d w Hl).
    set (w1 := set_heap _ _).
    assert (heap w1 !! l = Some (Instance c (<[n := d]> a))) as Hl1.
    { subst w1. simpl. apply list_lookup_insert_eq. by eapply lookup_lt_Some. }
    destruct (IH Hnd w1) as (Hi & Hlen & Hset & Hkeep).
    { unfold instance_dict. rewrite Hl1. eauto. }
    split; [exact Hi|]. split; [|split].
    + rewrite Hlen. subst w1. simpl. apply length_insert.
    + intros name d' Hin. apply elem_of_cons in Hin as [[= -> ->]|Hin].
      * rewrite (Hkeep n Hn). subst w1. simpl. by apply attr_of_insert_same.
      * by apply Hset.
    + intros name Hname. rewrite fmap_cons in Hname.
      apply not_elem_of_cons in Hname as [Hne Hname]. simpl in Hne.
      rewrite (Hkeep name Hname). subst w1. simpl. by apply attr_of_insert_other.
Qed.

(** On the pool-hit path [acquire] binds every defaulted field of the
    instance to the object captured by [__init__]; it allocates nothing, so
    no default factory has been called. *)
Lemma acquire_uses_captured_default (p : MemoryPool.t) rest l (w : World) :
  MemoryPool._pool p = (rest ++ [VRef l])%list →
  NoDup (MemoryPool._field_defaults p).*1 →
  is_Some (instance_dict (heap w) (VRef l)) →
  (MemoryPool.acquire p w).1 = Ok (VRef l, MemoryPool.with_pool p rest)
  ∧ length (heap (MemoryPool.acquire p w).2) = length (heap w)
  ∧ (∀ name d, (name, d) ∈ MemoryPool._field_defaults p →
       attr_of (heap (MemoryPool.acquire p w).2) (VRef l) name = Some d).
Proof.
  intros Hp Hnd Hinst. unfold MemoryPool.acquire. rewrite Hp, list_pop_snoc.
  unfold bind.
  pose proof (reset_defaults_returns (VRef l) (MemoryPool._field_defaults p) w) as Hr.
  destruct (reset_defaults_effect l (MemoryPool._field_defaults p) Hnd w Hinst)
    as (_ & Hlen & Hset & _).
  destruct (for_each _ _ w) as [r0 w']. simpl in *. subst r0. by unfold ret.
Qed.

(** The object captured for a defaulted field is the factory object of the
    field. *)
Lemma init_captures_factory (cls : PyClass) (max_size : Z) (p : MemoryPool.t)
    name fld fac :
  MemoryPool.__init__ cls max_size = Ok p →
  cls_fields cls = Some [(name, fld)] →
  MetaField.default fld = Some fac →
  MemoryPool._field_defaults p = [(name, factory_obj fac)].
Proof.
  unfold MemoryPool.__init__, to_c_int. case_bool_decide; [|done].
  intros [= <-] Hf Hd. simpl. rewrite Hf. simpl.
  unfold MetaField.has_default, MetaField.default_attr. by rewrite Hd.
Qed.

(** ** Further properties: attribute access *)

Lemma attr_of_insert_frame (h : list HeapObj) l c attrs g v o f :
  h !! l = Some (Instance c attrs) → (o, f) ≠ (VRef l, g) →
  attr_of (<[l := Instance c (<[g := v]> attrs)]> h) o f = attr_of h o f.
Proof.
  intros Hl Hne. unfold attr_of, instance_dict.
  destruct o as [| | | | |l']; try done.
  destruct (decide (l' = l)) as [->|Hll].
  - rewrite list_lookup_insert_eq by (by eapply lookup_lt_Some).
    rewrite Hl. simpl. rewrite lookup_insert_ne; [done|]. congruence.
  - by rewrite list_lookup_insert_ne.
Qed.



(** X3: on [None], a number, a string or a list object, none of which
    has a dictionary, [fast_setattr] of a name that is not a special
    (double underscore) name raises [AttributeError] and the objects of the
    store are as before: a failed write has no partial effect. *)
Theorem fast_setattr_failure (obj : Value) (name : string) (v : Value) (w : World) :
  startswith name "__" = false →
  match obj with
  | VNone | VInt _ | VStr _ => True
  | VRef l => ∃ items, heap w !! l = Some (ListObj items)
  | _ => False
  end →
  ∃ e, fast_setattr obj name v w = (Raise e, log (EvSet obj name v) w)
       ∧ exc_class e = AttributeError
       ∧ heap (fast_setattr obj name v w).2 = heap w.
Proof.
  intros _ Hobj.
  unfold fast_setattr, FastFieldAccess.set_attr_fast, bind, PyObject_SetAttr.
  destruct obj as [| | | | |l]; try done; try (eexists; split; [reflexivity|done]).
  destruct Hobj as [items ->]. eexists. split; [reflexivity|done].
Qed.

(** A write on a list object and on an integer. *)
Lemma fast_setattr_failure_witness :
  (∃ e, fast_setattr (VRef 2%nat) "x" (VInt 1) tagged_world
        = (Raise e, log (EvSet (VRef 2%nat) "x" (VInt 1)) tagged_world)
        ∧ exc_class e = AttributeError)
  ∧ (∃ e, fast_setattr (VInt 3) "x" (VInt 1) tagged_world
          = (Raise e, log (EvSet (VInt 3) "x" (VInt 1)) tagged_world)
          ∧ exc_class e = AttributeError).
Proof.
  split.
  - destruct (fast_setattr_failure (VRef 2%nat) "x" (VInt 1) tagged_world eq_refl)
      as (e & H & Hc & _); [by exists [VStr "x"]|]. eauto.
  - destruct (fast_setattr_failure (VInt 3) "x" (VInt 1) tagged_world eq_refl I)
      as (e & H & Hc & _). eauto.
Defined.

(** ** Further properties: one value *)

(** X4: with a serializer configured, [fast_serialize] returns what the
    serializer returns, and re-raises a failure of the serializer as a
    [ValueError] whose message is ["Serialization failed: "] followed by the
    message of the failure; the store is unchanged. *)
Theorem fast_serialize_hook
    (f : MetaField.t) (s : SerializerFn) (x : Value) (w : World) :
  MetaField.serializer f = Some s →
  fast_serialize x f w
  = match s x with
    | Ok y => (Ok y, w)
    | Raise e => (Raise (mkExc ValueError ("Serialization failed: " +:+ exc_msg e)), w)
    end.
Proof.
  intros Hs. unfold fast_serialize. rewrite Hs.
  unfold FieldSerializer.serialize_value, try_except, lift.
  by destruct (s x).
Qed.

(** ** Further properties: the type registry *)

(** X5: the registry starts empty; registering a type leaves the entry of
    every other type as it was, and registering it again replaces the
    entry: the registry is the one the last registration alone gives. *)
Theorem register_frame_overwrite
    (T T' : PyType) (v v' : ValidatorFn) (reg : TypeDispatcher.Registry) :
  TypeDispatcher.get_type_validator T TypeDispatcher.TYPE_VALIDATORS = None
  ∧ (T' ≠ T →
     TypeDispatcher.get_type_validator T'
       (TypeDispatcher.register_type_validator T v reg)
     = TypeDispatcher.get_type_validator T' reg)
  ∧ TypeDispatcher.register_type_validator T v'
      (TypeDispatcher.register_type_validator T v reg)
    = TypeDispatcher.register_type_validator T v' reg.
Proof.
  unfold TypeDispatcher.get_type_validator, TypeDispatcher.register_type_validator,
    TypeDispatcher.TYPE_VALIDATORS.
  split; [apply lookup_empty|]. split.
  - intros Hne. by apply lookup_insert_ne.
  - apply insert_insert_eq.
Qed.

(** A serializer that succeeds and one that fails. *)
Lemma fast_serialize_hook_witness :
  fast_serialize (VInt (-4)) signed_field bare_world = (Ok (VStr "negative"), bare_world)
  ∧ fast_serialize (VStr "x") signed_field bare_world
    = (Raise (mkExc ValueError "Serialization failed: not a number"), bare_world).
Proof.
  split.
  - apply (fast_serialize_hook signed_field sign_text (VInt (-4)) bare_world eq_refl).
  - apply (fast_serialize_hook signed_field sign_text (VStr "x") bare_world eq_refl).
Defined.

(** [Point] and [ColoredPoint] in one registry. *)
Lemma register_frame_overwrite_witness :
  TypeDispatcher.get_type_validator ColoredPoint
    (TypeDispatcher.register_type_validator Point absolute
       (TypeDispatcher.register_type_validator ColoredPoint non_negative
          TypeDispatcher.TYPE_VALIDATORS))
  = TypeDispatcher.get_type_validator ColoredPoint
      (TypeDispatcher.register_type_validator ColoredPoint non_negative
         TypeDispatcher.TYPE_VALIDATORS).
Proof.
  apply (register_frame_overwrite Point ColoredPoint absolute absolute). discriminate.
Defined.

(** ** Further properties: the instance pool *)

Lemma dict_set_fresh k v (d : list (string * Value)) :
  k ∉ d.*1 → dict_set k v d = (d ++ [(k, v)])%list.
Proof.
  induction d as [|[k' v'] d IH]; intros Hk; simpl; [done|].
  rewrite fmap_cons in Hk. apply not_elem_of_cons in Hk as [Hne Hk]. simpl in Hne.
  destruct (decide (k' = k)); [congruence|]. by rewrite IH.
Qed.

Lemma capture_defaults (fields : FieldTable) (d : list (string * Value)) :
  NoDup (d.*1 ++ fields.*1) →
  fold_left
    (λ d (entry : string * MetaField.t),
       if MetaField.has_default entry.2
       then dict_set entry.1 (MetaField.default_attr entry.2) d
       else d)
    fields d
  = (d ++ defaulted fields)%list.
Proof.
  revert d. induction fields as [|[n fld] fields IH]; intros d Hnd; simpl.
  - by rewrite app_nil_r.
  - rewrite fmap_cons in Hnd. simpl in Hnd.
    apply NoDup_app in Hnd as (Hd & Hdis & Hf).
    apply NoDup_cons in Hf as [Hn Hf].
    unfold defaulted. simpl. fold (defaulted fields).
    destruct (MetaField.has_default fld).
    + rewrite dict_set_fresh by (intros Hin; apply (Hdis n Hin); by left).
      rewrite IH; [by rewrite <- app_assoc|].
      rewrite fmap_app. simpl. rewrite <- app_assoc. simpl.
      apply NoDup_app. split; [done|]. split; [|by apply NoDup_cons].
      intros x Hx Hx'. by apply (Hdis x Hx).
    + apply IH. apply NoDup_app. split; [done|]. split; [|done].
      intros x Hx Hx'. apply (Hdis x Hx). by right.
Qed.

(** X6: the pool can be created exactly when [max_size] fits a C [int]:
    then it is empty, with that capacity and that class; otherwise
    [OverflowError] is raised. *)
Theorem pool_init_range (cls : PyClass) (max_size : Z) :
  (INT_MIN ≤ max_size ≤ INT_MAX →
   ∃ p, MemoryPool.__init__ cls max_size = Ok p
        ∧ MemoryPool.size p = 0
        ∧ MemoryPool._max_size p = max_size
        ∧ MemoryPool._model_class p = cls)
  ∧ (¬ (INT_MIN ≤ max_size ≤ INT_MAX) →
     ∃ e, MemoryPool.__init__ cls max_size = Raise e ∧ exc_class e = OverflowError).
Proof.
  unfold MemoryPool.__init__, to_c_int. split; intros H.
  - rewrite bool_decide_eq_true_2 by done. eexists. by split.
  - rewrite bool_decide_eq_false_2 by done. eexists. by split.
Qed.

(** A capacity that fits and one that does not. *)
Lemma pool_init_range_witness :
  (∃ p, MemoryPool.__init__ Tagged 100 = Ok p ∧ MemoryPool.size p = 0)
  ∧ (∃ e, MemoryPool.__init__ Tagged (2 ^ 31) = Raise e ∧ exc_class e = OverflowError).
Proof.
  split.
  - destruct (pool_init_range Tagged 100) as [Hfit _].
    destruct Hfit as (p & Hp & Hs & _); [unfold INT_MIN, INT_MAX; lia|]. eauto.
  - destruct (pool_init_range Tagged (2 ^ 31)) as [_ Hout].
    apply Hout. unfold INT_MIN, INT_MAX. lia.
Defined.

(** X7: the defaults a pool keeps are exactly the fields of the class that
    have a default, in table order, each with the object of its [default]
    attribute; a class without [_fields] gives none. *)
Theorem pool_init_field_defaults (cls : PyClass) (max_size : Z) (p : MemoryPool.t) :
  MemoryPool.__init__ cls max_size = Ok p →
  match cls_fields cls with
  | Some fields => NoDup fields.*1 → MemoryPool._field_defaults p = defaulted fields
  | None => MemoryPool._field_defaults p = []
  end.
Proof.
  unfold MemoryPool.__init__, to_c_int. case_bool_decide; [|done].
  intros [= <-]. simpl. destruct (cls_fields cls) as [fields|]; [|done].
  intros Hnd. by rewrite capture_defaults.
Qed.

(** The table of [Account]: two of its three fields have a default. *)
Lemma pool_init_field_defaults_witness :
  ∃ p, MemoryPool.__init__ Account 8 = Ok p
       ∧ MemoryPool._field_defaults p
         = [("tags", VFunc "list"); ("age", VFunc "<lambda>")].
Proof.
  eexists. split; [reflexivity|].
  apply (pool_init_field_defaults Account 8 _ eq_refl).
  apply (bool_decide_unpack _). vm_compute. exact I.
Defined.

(** X8: below capacity, [release] followed by [acquire] gives back the
    very object that was released, whatever it is, and the free list is the
    one before the release: the pool is last-in first-out and neither call
    raises. *)
Theorem release_acquire_lifo (p : MemoryPool.t) (obj : Value) (w : World) :
  MemoryPool.size p < MemoryPool._max_size p →
  ∃ p1 w1 p2,
    MemoryPool.release p obj w = (Ok p1, w1)
    ∧ MemoryPool.size p1 = MemoryPool.size p + 1
    ∧ (MemoryPool.acquire p1 w1).1 = Ok (obj, p2)
    ∧ MemoryPool._pool p2 = MemoryPool._pool p
    ∧ MemoryPool._max_size p2 = MemoryPool._max_size p.
Proof.
  intros Hlt.
  destruct (release_returns p obj w) as [[_ [w1 Hrel]]|[Hge _]]; [|lia].
  eexists. exists w1. eexists. split; [exact Hrel|]. split.
  { unfold MemoryPool.size. simpl. rewrite length_app. simpl. lia. }
  unfold MemoryPool.acquire. simpl. rewrite list_pop_snoc. unfold bind.
  pose proof (reset_defaults_returns obj (MemoryPool._field_defaults p) w1) as Hr.
  simpl.
  destruct (for_each _ _ w1) as [r0 w2]. simpl in Hr. subst r0.
  unfold ret. simpl. split; [reflexivity|]. by split.
Qed.

(** An integer is released and comes back. *)
Lemma release_acquire_lifo_witness :
  ∃ p p1 w1 p2,
    MemoryPool.__init__ Tagged 2 = Ok p
    ∧ MemoryPool.release p (VInt 3) tagged_world = (Ok p1, w1)
    ∧ (MemoryPool.acquire p1 w1).1 = Ok (VInt 3, p2)
    ∧ MemoryPool._pool p2 = [].
Proof.
  eexists. 
  destruct (release_acquire_lifo
              {| MemoryPool._pool := []; MemoryPool._model_class := Tagged;
                 MemoryPool._max_size := 2;
                 MemoryPool._field_defaults := [("tags", VFunc "list")] |}
              (VInt 3) tagged_world) as (p1 & w1 & p2 & Hrel & _ & Hacq & Hpool & _).
  { vm_compute. reflexivity. }
  exists p1, w1, p2. split; [reflexivity|]. by split.
Defined.

Lemma strip_loop_lookup (p : MemoryPool.t) (names : list string)
    (a : gmap string Value) (name : string) :
  foldl (λ a n, if strips p n then delete n a else a) a names !! name
  = if strips p name && bool_decide (name ∈ names) then None else a !! name.
Proof.
  revert a. induction names as [|n names IH]; intros a; simpl.
  - by rewrite andb_false_r.
  - rewrite IH.
    assert ((if strips p n then delete n a else a) !! name
            = if strips p name && bool_decide (n = name) then None else a !! name) as ->.
    { destruct (decide (n = name)) as [->|Hne].
      - rewrite bool_decide_eq_true_2 by done. rewrite andb_true_r.
        destruct (strips p name); [apply lookup_delete_eq | done].
      - rewrite bool_decide_eq_false_2 by done. rewrite andb_false_r.
        destruct (strips p n); [by apply lookup_delete_ne | done]. }
    destruct (strips p name); simpl; [|done].
    destruct (decide (name ∈ names)) as [Hin|Hin].
    + rewrite (bool_decide_eq_true_2 (name ∈ names)) by done.
      by rewrite bool_decide_eq_true_2 by (by right).
    + rewrite (bool_decide_eq_false_2 (name ∈ names)) by done.
      destruct (decide (n = name)) as [->|Hne].
      * rewrite bool_decide_eq_true_2 by done.
        by rewrite bool_decide_eq_true_2 by (by left).
      * rewrite (bool_decide_eq_false_2 (n = name)) by done.
        by rewrite bool_decide_eq_false_2
          by (intros [?|?]%elem_of_cons; [congruence|done]).
Qed.

Lemma try_delattr_instance l c (a : gmap string Value) n w :
  heap w !! l = Some (Instance c a) →
  try_except (delattr (VRef l) n) Exception (λ _, ret tt) w
  = (Ok tt, set_heap (<[l := Instance c (delete n a)]> (heap w))
              (log (EvDel (VRef l) n) w)).
Proof.
  intros Hl. unfold try_except, delattr. rewrite Hl.
  destruct (a !! n) as [x|] eqn:Hn; [done|]. simpl.
  rewrite (delete_id a n Hn), (list_insert_id _ _ _ Hl). done.
Qed.

(** What the loop of [release] does to an instance: the names of the list
    that pass the test are deleted, and no other object changes. *)
Lemma strip_loop_effect (p : MemoryPool.t) l c (names : list string) :
  ∀ (a : gmap string Value) w,
    heap w !! l = Some (Instance c a) →
    let w' := (for_each names
                 (λ attr,
                    if negb (startswith attr "_")
                       && negb (bool_decide (attr ∈ (MemoryPool._field_defaults p).*1))
                    then try_except (delattr (VRef l) attr) Exception (λ _, ret tt)
                    else ret tt) w).2 in
    heap w' !! l
    = Some (Instance c (foldl (λ a n, if strips p n then delete n a else a) a names))
    ∧ (∀ l', l' ≠ l → heap w' !! l' = heap w !! l').
Proof.
  induction names as [|n names IH]; intros a w Hl; cbv zeta.
  - simpl. by split.
  - rewrite for_each_cons. cbv beta. simpl foldl. fold (strips p n).
    destruct (strips p n) eqn:Hs.
    + rewrite (try_delattr_instance l c a n w Hl).
      match goal with |- context [for_each names ?body ?w1] =>
        destruct (IH (delete n a) w1) as [H1 H2] end.
      { simpl. apply list_lookup_insert_eq. by eapply lookup_lt_Some. }
      split; [exact H1|].
      intros l' Hne. rewrite (H2 l' Hne). simpl. by apply list_lookup_insert_ne.
    + unfold ret at 1. by apply IH.
Qed.

(** X9: below capacity, [release] of an instance deletes exactly its public
    attributes that are not defaulted fields: names starting with an
    underscore and names of [_field_defaults] keep their value, the others
    are gone; no other object changes, and the instance joins the free
    list. *)
Theorem release_strips
    (p : MemoryPool.t) (l : loc) (c : string) (attrs : gmap string Value) (w : World) :
  heap w !! l = Some (Instance c attrs) →
  MemoryPool.size p < MemoryPool._max_size p →
  ∃ w', MemoryPool.release p (VRef l) w
        = (Ok (MemoryPool.with_pool p (MemoryPool._pool p ++ [VRef l])), w')
        ∧ (∀ name, attr_of (heap w') (VRef l) name
                   = if strips p name then None else attrs !! name)
        ∧ (∀ l', l' ≠ l → heap w' !! l' = heap w !! l').
Proof.
  intros Hl Hlt. unfold MemoryPool.release, MemoryPool.size in *.
  rewrite (proj2 (Z.ltb_lt _ _) Hlt). unfold bind at 1, dir at 1, instance_dict.
  rewrite Hl. unfold bind.
  set (names := (map_to_list attrs).*1).
  pose proof (strip_returns p (VRef l) names w) as Hr.
  destruct (strip_loop_effect p l c names attrs w Hl) as [Hnew Hframe].
  destruct (for_each names _ w) as [r0 w'] eqn:E. simpl in *. subst r0.
  exists w'. split; [reflexivity|]. split; [|exact Hframe].
  intros name. unfold attr_of, instance_dict. rewrite Hnew. simpl.
  rewrite strip_loop_lookup.
  destruct (strips p name); simpl; [|done].
  case_bool_decide as Hin; [done|].
  destruct (attrs !! name) as [x|] eqn:Hx; [|done].
  exfalso. apply Hin. subst names. apply list_elem_of_fmap.
  exists (name, x). split; [done|]. by apply elem_of_map_to_list.
Qed.

(** An [Account] is released: ["scratch"] goes, ["_secret"] and the
    defaulted ["tags"] stay. *)
Lemma release_strips_witness :
  ∃ p w',
    MemoryPool.__init__ Account 8 = Ok p
    ∧ (MemoryPool.release p (VRef 0%nat) account_world).2 = w'
    ∧ attr_of (heap w') (VRef 0%nat) "scratch" = None
    ∧ attr_of (heap w') (VRef 0%nat) "_secret" = Some (VInt 2)
    ∧ attr_of (heap w') (VRef 0%nat) "tags" = Some (VInt 3)
    ∧ attr_of (heap w') (VRef 1%nat) "scratch" = Some (VInt 4).
Proof.
  exists {| MemoryPool._pool := []; MemoryPool._model_class := Account;
            MemoryPool._max_size := 8;
            MemoryPool._field_defaults :=
              [("tags", VFunc "list"); ("age", VFunc "<lambda>")] |}.
  edestruct (release_strips
               {| MemoryPool._pool := []; MemoryPool._model_class := Account;
                  MemoryPool._max_size := 8;
                  MemoryPool._field_defaults :=
                    [("tags", VFunc "list"); ("age", VFunc "<lambda>")] |}
               0%nat "Account"
               {["scratch" := VInt 1; "_secret" := VInt 2; "tags" := VInt 3]}
               account_world) as (w' & Hrel & Hattr & Hframe).
  { reflexivity. }
  { vm_compute. reflexivity. }
  exists w'. split; [reflexivity|]. split; [by rewrite Hrel|].
  split; [exact (Hattr "scratch")|]. split; [exact (Hattr "_secret")|].
  split; [exact (Hattr "tags")|].
  unfold attr_of, instance_dict. rewrite (Hframe 1%nat) by done. reflexivity.
Defined.

Lemma reset_defaults_frame l (defaults : list (string * Value)) w :
  ∀ l', l' ≠ l →
    heap (for_each defaults
            (λ entry, try_except (setattr (VRef l) entry.1 entry.2)
                        Exception (λ _, ret tt)) w).2 !! l'
    = heap w !! l'.
Proof.
  apply (for_each_preserves (λ w w', ∀ l', l' ≠ l → heap w' !! l' = heap w !! l')).
  - done.
  - intros w1 w2 w3 H1 H2 l' Hne. by rewrite H2, H1.
  - intros [n d] w0 _ l' Hne. unfold try_except, setattr, bind, PyObject_SetAttr.
    simpl. destruct (heap w0 !! l) as [[c a|items]|]; simpl; try done.
    by apply list_lookup_insert_ne.
Qed.

(** X10: when the free list is not empty and its last item is an instance,
    [acquire] returns that instance and removes it from the list; every
    name of [_field_defaults] is bound on it to the object kept for that
    name, its other attributes are as before, no other object changes and
    nothing is allocated. *)
Theorem acquire_pool_hit
    (p : MemoryPool.t) (rest : list Value) (l : loc) (c : string)
    (attrs : gmap string Value) (w : World) :
  MemoryPool._pool p = (rest ++ [VRef l])%list →
  NoDup (MemoryPool._field_defaults p).*1 →
  heap w !! l = Some (Instance c attrs) →
  ∃ w', MemoryPool.acquire p w = (Ok (VRef l, MemoryPool.with_pool p rest), w')
        ∧ length (heap w') = length (heap w)
        ∧ (∀ name d, (name, d) ∈ MemoryPool._field_defaults p →
             attr_of (heap w') (VRef l) name = Some d)
        ∧ (∀ name, name ∉ (MemoryPool._field_defaults p).*1 →
             attr_of (heap w') (VRef l) name = attrs !! name)
        ∧ (∀ l', l' ≠ l → heap w' !! l' = heap w !! l').
Proof.
  intros Hp Hnd Hl.
  assert (is_Some (instance_dict (heap w) (VRef l))) as Hinst
    by (unfold instance_dict; rewrite Hl; eauto).
  unfold MemoryPool.acquire. rewrite Hp, list_pop_snoc. unfold bind.
  pose proof (reset_defaults_returns (VRef l) (MemoryPool._field_defaults p) w) as Hr.
  pose proof (reset_defaults_frame l (MemoryPool._field_defaults p) w) as Hframe.
  destruct (reset_defaults_effect l (MemoryPool._field_defaults p) Hnd w Hinst)
    as (_ & Hlen & Hset & Hkeep).
  destruct (for_each _ _ w) as [r0 w']. simpl in *. subst r0.
  exists w'. unfold ret. split; [done|]. split; [done|]. split; [done|].
  split; [|done].
  intros name Hname. rewrite (Hkeep name Hname).
  unfold attr_of, instance_dict. by rewrite Hl.
Qed.

(** A released [Account] is acquired: ["tags"] and ["age"] are rebound,
    ["_secret"] is kept. *)
Lemma acquire_pool_hit_witness :
  ∃ w', MemoryPool.acquire
          {| MemoryPool._pool := [VRef 1%nat; VRef 0%nat];
             MemoryPool._model_class := Account;
             MemoryPool._max_size := 8;
             MemoryPool._field_defaults :=
               [("tags", VFunc "list"); ("age", VFunc "<lambda>")] |}
          account_world
        = (Ok (VRef 0%nat,
               {| MemoryPool._pool := [VRef 1%nat];
                  MemoryPool._model_class := Account;
                  MemoryPool._max_size := 8;
                  MemoryPool._field_defaults :=
                    [("tags", VFunc "list"); ("age", VFunc "<lambda>")] |}), w')
        ∧ attr_of (heap w') (VRef 0%nat) "age" = Some (VFunc "<lambda>")
        ∧ attr_of (heap w') (VRef 0%nat) "_secret" = Some (VInt 2).
Proof.
  edestruct (acquire_pool_hit
               {| MemoryPool._pool := [VRef 1%nat; VRef 0%nat];
                  MemoryPool._model_class := Account;
                  MemoryPool._max_size := 8;
                  MemoryPool._field_defaults :=
                    [("tags", VFunc "list"); ("age", VFunc "<lambda>")] |}
               [VRef 1%nat] 0%nat "Account"
               {["scratch" := VInt 1; "_secret" := VInt 2; "tags" := VInt 3]}
               account_world) as (w' & Hacq & _ & Hset & Hkeep & _).
  { reflexivity. }
  { apply (bool_decide_unpack _). vm_compute. exact I. }
  { reflexivity. }
  exists w'. split; [exact Hacq|]. split.
  - apply Hset. right. left.
  - rewrite Hkeep; [reflexivity|].
    apply (bool_decide_unpack _). vm_compute. exact I.
Defined.

(** ** Further properties: the cached descriptor *)

(** X11: once a read has returned a value for an instance, every later
    read through the resulting descriptor returns that same value without
    touching the store, whatever the store then holds: the cached entry is
    never rechecked against the shadow attribute. *)
Theorem descriptor_get_cached
    (py_id : Value → Z) (d d' : OptimizedDescriptor.t) (obj v : Value) (w w' : World) :
  OptimizedDescriptor.__get__ py_id d obj w
  = (Ok (OptimizedDescriptor.RetValue v, d'), w') →
  ∀ w2, OptimizedDescriptor.__get__ py_id d' obj w2
        = (Ok (OptimizedDescriptor.RetValue v, d'), w2).
Proof.
  unfold OptimizedDescriptor.__get__ at 1.
  destruct (decide (obj = VNone)) as [|Hobj]; [done|].
  unfold bind at 1, lift.
  destruct (to_c_int (py_id obj)) as [k|e] eqn:Hk; [|done].
  assert (∀ d0, OptimizedDescriptor._cache d0 !! k = Some v →
            ∀ w2, OptimizedDescriptor.__get__ py_id d0 obj w2
                  = (Ok (OptimizedDescriptor.RetValue v, d0), w2)) as Hhit.
  { intros d0 Hc w2. unfold OptimizedDescriptor.__get__.
    destruct (decide (obj = VNone)); [done|].
    unfold bind, lift. by rewrite Hk, Hc. }
  destruct (OptimizedDescriptor._cache d !! k) as [cached|] eqn:Hc.
  - unfold ret. intros [= <- <- <-]. by apply Hhit.
  - unfold try_except, bind at 1.
    destruct (PyObject_GetAttr obj (OptimizedDescriptor.shadow d) w) as [[value|e] w1].
    + unfold ret. intros [= <- <- <-]. apply Hhit. simpl. apply lookup_insert_eq.
    + destruct (exc_matches e AttributeError); [|done].
      destruct (MetaField.has_default (OptimizedDescriptor.field d)); [|done].
      unfold bind.
      destruct (MetaField.produce (OptimizedDescriptor.field d) w1) as [[value|e'] w2];
        [|done].
      destruct (setattr obj (OptimizedDescriptor.shadow d) value w2) as [[[]|e'] w3];
        [|done].
      unfold ret. intros [= <- <- <-]. apply Hhit. simpl. apply lookup_insert_eq.
Qed.

(** A first read fills the cache; a read in a store where the shadow
    attribute is gone still returns 7. *)
Lemma descriptor_get_cached_witness :
  ∃ d', (OptimizedDescriptor.__get__ low_addresses age_descriptor (VRef 0%nat)
           shadow_world).1 = Ok (OptimizedDescriptor.RetValue (VInt 7), d')
        ∧ OptimizedDescriptor.__get__ low_addresses d' (VRef 0%nat) bare_world
          = (Ok (OptimizedDescriptor.RetValue (VInt 7), d'), bare_world).
Proof.
  eexists. split; [reflexivity|].
  eapply (descriptor_get_cached low_addresses age_descriptor _ (VRef 0%nat) (VInt 7)
            shadow_world).
  reflexivity.
Defined.

(** X12: when the identity of the object does not fit a C [int], [__set__]
    raises [OverflowError] and so does [__get__] on any object other than
    [None]; neither touches the store. *)
Theorem descriptor_identity_out_of_range
    (py_id : Value → Z) (d : OptimizedDescriptor.t) (obj v : Value) (w : World) :
  ¬ (INT_MIN ≤ py_id obj ≤ INT_MAX) →
  (∃ e, OptimizedDescriptor.__set__ py_id d obj v w = (Raise e, w)
        ∧ exc_class e = OverflowError)
  ∧ (obj ≠ VNone →
     ∃ e, OptimizedDescriptor.__get__ py_id d obj w = (Raise e, w)
          ∧ exc_class e = OverflowError).
Proof.
  intros Hout. split.
  - unfold OptimizedDescriptor.__set__, bind, lift, to_c_int.
    rewrite bool_decide_eq_false_2 by done. eauto.
  - intros Hobj. unfold OptimizedDescriptor.__get__.
    destruct (decide (obj = VNone)); [done|].
    unfold bind, lift, to_c_int. rewrite bool_decide_eq_false_2 by done. eauto.
Qed.

(** Addresses above [2 ^ 31]. *)
Lemma descriptor_identity_out_of_range_witness :
  (∃ e, OptimizedDescriptor.__set__ high_addresses age_descriptor (VRef 0%nat) (VInt 5)
          shadow_world = (Raise e, shadow_world)
        ∧ exc_class e = OverflowError)
  ∧ (∃ e, OptimizedDescriptor.__get__ high_addresses age_descriptor (VRef 0%nat)
            shadow_world = (Raise e, shadow_world)
          ∧ exc_class e = OverflowError).
Proof.
  destruct (descriptor_identity_out_of_range high_addresses age_descriptor
              (VRef 0%nat) (VInt 5) shadow_world) as [Hset Hget].
  { unfold INT_MIN, INT_MAX. vm_compute. intros [_ H]. by apply H. }
  split; [exact Hset | by apply Hget].
Defined.

(** X13: when the identity of the object fits a C [int] and the validator
    of the field rejects the value, [__set__] raises the validator's own
    exception, class and message as they are, and the store is untouched:
    nothing is written and nothing is cached. *)
Theorem descriptor_set_rejected
    (py_id : Value → Z) (d : OptimizedDescriptor.t) (obj x : Value)
    (validator : ValidatorFn) (e : PyExc) (w : World) :
  INT_MIN ≤ py_id obj ≤ INT_MAX →
  MetaField.validator (OptimizedDescriptor.field d) = Some validator →
  validator x = Raise e →
  OptimizedDescriptor.__set__ py_id d obj x w = (Raise e, w).
Proof.
  intros Hfit Hv Hx. unfold OptimizedDescriptor.__set__, bind, lift, to_c_int.
  rewrite bool_decide_eq_true_2 by done. by rewrite Hv, Hx.
Qed.

(** A negative age is refused with the validator's exception. *)
Lemma descriptor_set_rejected_witness :
  OptimizedDescriptor.__set__ low_addresses age_descriptor (VRef 1%nat) (VInt (-5))
    shadow_world
  = (Raise (mkExc (UserError "NegativeAge") "age must be >= 0"), shadow_world).
Proof.
  apply (descriptor_set_rejected low_addresses age_descriptor (VRef 1%nat) (VInt (-5))
           non_negative).
  - unfold INT_MIN, INT_MAX. vm_compute. split; discriminate.
  - reflexivity.
  - reflexivity.
Defined.

(** X14: when [__set__] returns, what it wrote survives [clear_cache]:
    the cache is then empty, and the read that follows reads the shadow
    attribute (the read is recorded), returns the value stored by the
    write, the validator's result for [v] or [v] itself when the field has
    no validator, and leaves a cache that holds this one entry. *)
Theorem descriptor_set_clear_get
    (py_id : Value → Z) (d d' : OptimizedDescriptor.t) (obj v : Value) (w w' : World) :
  OptimizedDescriptor.__set__ py_id d obj v w = (Ok d', w') →
  ∃ k v',
    to_c_int (py_id obj) = Ok k
    ∧ match MetaField.validator (OptimizedDescriptor.field d) with
      | Some validator => validator v = Ok v'
      | None => v' = v
      end
    ∧ attr_of (heap w') obj (OptimizedDescriptor.shadow d) = Some v'
    ∧ OptimizedDescriptor._cache (OptimizedDescriptor.clear_cache d') = ∅
    ∧ OptimizedDescriptor.__get__ py_id (OptimizedDescriptor.clear_cache d') obj w'
      = (Ok (OptimizedDescriptor.RetValue v',
             OptimizedDescriptor.with_cache d' {[k := v']}),
         log (EvGet obj (OptimizedDescriptor.shadow d)) w').
Proof.
  unfold OptimizedDescriptor.__set__, bind, lift.
  destruct (to_c_int (py_id obj)) as [k|e] eqn:Hk; [|done].
  assert (∀ v', setattr obj (OptimizedDescriptor.shadow d) v' w = (Ok tt, w') →
            d' = OptimizedDescriptor.with_cache d
                   (<[k := v']> (OptimizedDescriptor._cache d)) →
            attr_of (heap w') obj (OptimizedDescriptor.shadow d) = Some v'
            ∧ OptimizedDescriptor._cache (OptimizedDescriptor.clear_cache d') = ∅
            ∧ OptimizedDescriptor.__get__ py_id (OptimizedDescriptor.clear_cache d') obj w'
              = (Ok (OptimizedDescriptor.RetValue v',
                     OptimizedDescriptor.with_cache d' {[k := v']}),
                 log (EvGet obj (OptimizedDescriptor.shadow d)) w')) as Hgo.
  { intros v' Hset ->.
    apply setattr_inv in Hset as (l & c & attrs & -> & Hl & ->).
    split; [simpl; by apply attr_of_insert_same|]. split; [done|].
    unfold OptimizedDescriptor.__get__, bind, lift. simpl. rewrite Hk.
    rewrite lookup_empty. unfold try_except, bind, PyObject_GetAttr. simpl.
    rewrite (attr_of_insert_same _ _ _ _ _ _ Hl). unfold ret.
    by rewrite insert_empty. }
  destruct (MetaField.validator (OptimizedDescriptor.field d)) as [validator|].
  - destruct (validator v) as [v'|e] eqn:Hv; [|done].
    destruct (setattr obj (OptimizedDescriptor.shadow d) v' w) as [[[]|e] w1] eqn:Hs;
      [|done].
    unfold ret. intros [= <- <-]. exists k, v'. split; [done|]. split; [done|].
    by apply Hgo.
  - unfold ret at 1.
    destruct (setattr obj (OptimizedDescriptor.shadow d) v w) as [[[]|e] w1] eqn:Hs;
      [|done].
    unfold ret. intros [= <- <-]. exists k, v. split; [done|]. split; [done|].
    by apply Hgo.
Qed.

(** A write through [abs], the cache dropped, and the read. *)
Lemma descriptor_set_clear_get_witness :
  ∃ d' w',
    OptimizedDescriptor.__set__ low_addresses size_descriptor (VRef 0%nat) (VInt (-3))
      shadow_world = (Ok d', w')
    ∧ OptimizedDescriptor.__get__ low_addresses (OptimizedDescriptor.clear_cache d')
        (VRef 0%nat) w'
      = (Ok (OptimizedDescriptor.RetValue (VInt 3),
             OptimizedDescriptor.with_cache d' {[4096 := VInt 3]}),
         log (EvGet (VRef 0%nat) "_size") w').
Proof.
  assert (∃ d' w',
            OptimizedDescriptor.__set__ low_addresses size_descriptor (VRef 0%nat)
              (VInt (-3)) shadow_world = (Ok d', w')) as (d' & w' & Hs)
    by (eexists; eexists; vm_compute; reflexivity).
  destruct (descriptor_set_clear_get low_addresses size_descriptor d' (VRef 0%nat)
              (VInt (-3)) shadow_world w' Hs) as (k & v' & Hk & Hv & _ & _ & Hg).
  vm_compute in Hk. injection Hk as <-.
  vm_compute in Hv. injection Hv as <-.
  exists d', w'. by split.
Defined.

(** ** Further properties: batch serialization *)

Lemma foldM_cons {A S} (body : S → A → M S) x l s w :
  foldM body (x :: l) s w
  = match body s x w with
    | (Ok s', w') => foldM body l s' w'
    | (Raise e, w') => (Raise e, w')
    end.
Proof. reflexivity. Qed.

Lemma serialize_field_returns obj exclude_none d n fld w :
  ∃ d', (BatchProcessor.serialize_field obj exclude_none d (n, fld) w).1 = Ok d'
        ∧ (d' = d ∨ ∃ v, d' = dict_set n v d).
Proof.
  unfold BatchProcessor.serialize_field, try_except.
  match goal with |- context [match ?m w with _ => _ end] =>
    assert (∀ r w', m w = (Ok r, w') → r = d ∨ ∃ v, r = dict_set n v d) as Hm;
    [|destruct (m w) as [[r|e] w'] eqn:E; simpl;
      [exists r; split; [done|by eapply Hm] | exists d; split; [done|by left]]] end.
  assert (∀ value r w0 w',
            (if exclude_none && bool_decide (value = VNone) then ret d
             else
               let! value0 :=
                 match MetaField.serializer fld with
                 | Some _ => FieldSerializer.serialize_value value (MetaField.serializer fld)
                 | None => ret value
                 end in
               ret (dict_set n value0 d)) w0 = (Ok r, w') →
            r = d ∨ ∃ v, r = dict_set n v d) as Hstore.
  { intros value r w0 w'. destruct (exclude_none && _).
    - unfold ret. intros [= <- _]. by left.
    - unfold bind. destruct (MetaField.serializer fld) as [s|].
      + unfold FieldSerializer.serialize_value, try_except, lift, raise.
        destruct (s value) as [y|e]; simpl; [|done].
        unfold ret. intros [= <- _]. right. eauto.
      + unfold ret. intros [= <- _]. right. eauto. }
  intros r w'. unfold bind at 1.
  destruct (PyObject_GetAttr obj n w) as [[value|e0] w1]; [|done].
  cbv zeta.
  destruct (decide ((if decide (value = VNone) then VMissing else value) = VMissing)).
  - destruct (MetaField.has_default fld).
    + unfold bind at 1.
      destruct (MetaField.produce fld w1) as [[value'|e'] w2]; [|done].
      apply Hstore.
    + unfold ret. intros [= <- _]. by left.
  - apply Hstore.
Qed.

Lemma dict_set_keys n v (d : list (string * Value)) :
  n ∉ d.*1 → (dict_set n v d).*1 = (d.*1 ++ [n])%list.
Proof. intros H. rewrite dict_set_fresh by done. by rewrite fmap_app. Qed.

(** The mapping built for one object: its keys are names of the table, in
    table order. *)
Lemma serialize_fields_keys obj exclude_none (fields : FieldTable) :
  ∀ d w, NoDup (d.*1 ++ fields.*1) →
    ∃ d' ks, (foldM (BatchProcessor.serialize_field obj exclude_none) fields d w).1 = Ok d'
             ∧ d'.*1 = (d.*1 ++ ks)%list ∧ ks `sublist_of` fields.*1.
Proof.
  induction fields as [|[n fld] fields IH]; intros d w Hnd.
  - exists d, []. simpl. split; [done|]. by rewrite app_nil_r.
  - rewrite fmap_cons in Hnd. simpl in Hnd.
    assert (n ∉ d.*1) as Hn.
    { apply NoDup_app in Hnd as (_ & Hdis & _). intros Hin. apply (Hdis n Hin). by left. }
    assert (NoDup (d.*1 ++ fields.*1)) as Hnd1.
    { apply NoDup_app in Hnd as (Hd & Hdis & Hf). apply NoDup_cons in Hf as [_ Hf].
      apply NoDup_app. split; [done|]. split; [|done].
      intros x Hx Hx'. apply (Hdis x Hx). by right. }
    assert (NoDup ((d.*1 ++ [n]) ++ fields.*1)) as Hnd2
      by (by rewrite <- app_assoc).
    rewrite foldM_cons.
    destruct (serialize_field_returns obj exclude_none d n fld w) as (d1 & Hd1 & Hcase).
    destruct (BatchProcessor.serialize_field obj exclude_none d (n, fld) w) as [r w1].
    simpl in Hd1. subst r.
    destruct Hcase as [->|[v ->]].
    + destruct (IH d w1 Hnd1) as (d' & ks & Hr & Hk & Hs).
      exists d', ks. split; [done|]. split; [done|]. by apply sublist_cons.
    + destruct (IH (dict_set n v d) w1) as (d' & ks & Hr & Hk & Hs).
      { by rewrite dict_set_keys. }
      exists d', (n :: ks). split; [done|]. split.
      * rewrite Hk, dict_set_keys by done. by rewrite <- app_assoc.
      * by apply sublist_skip.
Qed.

Lemma serialize_batch_loop objects (fields : FieldTable) exclude_none :
  NoDup fields.*1 →
  ∀ results w,
    ∃ ds, (foldM
             (λ (results : list (list (string * Value))) obj,
                let! obj_dict :=
                  foldM (BatchProcessor.serialize_field obj exclude_none) fields [] in
                ret (results ++ [obj_dict])%list)
             objects results w).1 = Ok (results ++ ds)%list
          ∧ length ds = length objects
          ∧ Forall (λ d : list (string * Value), d.*1 `sublist_of` fields.*1) ds.
Proof.
  intros Hnd. induction objects as [|obj objects IH]; intros results w.
  - exists []. simpl. by rewrite app_nil_r.
  - rewrite foldM_cons. unfold bind at 1.
    destruct (serialize_fields_keys obj exclude_none fields [] w Hnd)
      as (d & ks & Hd & Hk & Hs).
    destruct (foldM (BatchProcessor.serialize_field obj exclude_none) fields [] w)
      as [r w1]. simpl in Hd. subst r. unfold ret at 1.
    destruct (IH (results ++ [d])%list w1) as (ds & Hr & Hlen & Hall).
    exists (d :: ds). rewrite Hr. split; [by rewrite <- app_assoc|].
    split; [simpl; by rewrite Hlen|]. constructor; [|done]. by rewrite Hk.
Qed.

(** X15: whatever the objects hold and whatever the serializers and
    factories do, [serialize_batch] does not raise: it returns one mapping
    per object, and the keys of each mapping are names of the table, each at
    most once and in table order. *)
Theorem serialize_batch_shape
    (objects : list Value) (fields : FieldTable) (exclude_none : bool) (w : World) :
  NoDup fields.*1 →
  ∃ ds, (BatchProcessor.serialize_batch objects fields exclude_none w).1 = Ok ds
        ∧ length ds = length objects
        ∧ Forall (λ d : list (string * Value), d.*1 `sublist_of` fields.*1) ds.
Proof.
  intros Hnd. unfold BatchProcessor.serialize_batch.
  destruct (serialize_batch_loop objects fields exclude_none Hnd [] w)
    as (ds & Hr & Hlen & Hall). eauto.
Qed.

(** Two entries and an integer against the ledger table. *)
Lemma serialize_batch_shape_witness :
  ∃ ds, (BatchProcessor.serialize_batch [VRef 0%nat; VInt 5; VRef 1%nat] ledger_table
           true ledger_world).1 = Ok ds
        ∧ length ds = 3%nat.
Proof.
  destruct (serialize_batch_shape [VRef 0%nat; VInt 5; VRef 1%nat] ledger_table true
              ledger_world) as (ds & Hr & Hlen & _).
  { apply (bool_decide_unpack _). vm_compute. exact I. }
  exists ds. by split.
Defined.






(** ** Further properties: batch validation *)

(** In a loop over distinct items whose iterations all return, when the
    iteration at [x0] turns [P] into [Q] and the others keep both, [P]
    before the loop gives [Q] after it. *)
Lemma foldM_switch {A S} (P Q : World → Prop) (body : S → A → M S) l x0 :
  NoDup l → x0 ∈ l →
  (∀ s x w, x ∈ l → ∃ s', (body s x w).1 = Ok s') →
  (∀ s x w, x ∈ l → x ≠ x0 → P w → P (body s x w).2) →
  (∀ s x w, x ∈ l → x ≠ x0 → Q w → Q (body s x w).2) →
  (∀ s w, P w → Q (body s x0 w).2) →
  ∀ s w, P w → Q (foldM body l s w).2.
Proof.
  induction l as [|x l IH]; intros Hnd Hin Hret HP HQ Hx0 s w Hw.
  - by apply elem_of_nil in Hin.
  - apply NoDup_cons in Hnd as [Hx Hnd]. rewrite foldM_cons.
    destruct (Hret s x w ltac:(left)) as [s' Hs'].
    apply elem_of_cons in Hin as [->|Hin].
    + pose proof (Hx0 s w Hw) as Hq.
      destruct (body s x w) as [r w'] eqn:E. simpl in *. subst r.
      apply foldM_stable; [|done].
      intros s0 y w0 Hy Hq0. apply HQ; [by right| |done]. intros ->. done.
    + assert (x ≠ x0) as Hne by (intros ->; done).
      pose proof (HP s x w ltac:(left) Hne Hw) as Hp.
      destruct (body s x w) as [r w'] eqn:E. simpl in *. subst r.
      apply IH; auto.
      * intros s0 y w0 Hy. apply Hret. by right.
      * intros s0 y w0 Hy. apply HP. by right.
      * intros s0 y w0 Hy. apply HQ. by right.
Qed.

(** One step of the inner loop touches the attribute it names on the object
    it is given, and no other. *)
Lemma validate_field_frame obj g fld o n w :
  (o, n) ≠ (obj, g) →
  attr_of (heap (BatchProcessor.validate_field obj (g, fld) w).2) o n
  = attr_of (heap w) o n.
Proof.
  intros Hne. unfold BatchProcessor.validate_field.
  destruct (MetaField.validator fld) as [v|]; [|done].
  unfold try_except, bind.
  pose proof (get_attr_fast_heap obj g VMissing w) as Hh.
  destruct (FastFieldAccess.get_attr_fast obj g VMissing w) as [[value|e] w1];
    simpl in Hh; [|simpl; by rewrite Hh].
  destruct (decide (value = VMissing)); simpl; [by rewrite Hh|].
  unfold try_except, lift, raise.
  destruct (v value) as [x|e]; simpl; [|by rewrite Hh].
  unfold setattr, bind, PyObject_SetAttr.
  destruct obj as [| | | | |l]; simpl; try (by rewrite Hh).
  destruct (heap w1 !! l) as [[c attrs|items]|] eqn:Hl; simpl; try (by rewrite Hh).
  rewrite <- Hh. by apply attr_of_insert_frame.
Qed.

(** The step for a field whose attribute is present and accepted writes
    the validator's result. *)
Lemma validate_field_writes l g fld v x y w :
  MetaField.validator fld = Some v →
  attr_of (heap w) (VRef l) g = Some x → x ≠ VMissing → v x = Ok y →
  attr_of (heap (BatchProcessor.validate_field (VRef l) (g, fld) w).2) (VRef l) g = Some y.
Proof.
  intros Hv Hx Hmiss Hy. unfold BatchProcessor.validate_field. rewrite Hv.
  unfold try_except, bind at 1.
  unfold FastFieldAccess.get_attr_fast, try_except, bind at 1, PyObject_GetAttr.
  rewrite Hx. unfold ret at 1.
  destruct (decide (x = VMissing)); [done|].
  unfold bind, FieldValidator.validate_with_type_check, try_except, lift.
  rewrite Hy.
  unfold attr_of, instance_dict in Hx. simpl in Hx.
  destruct (heap w !! l) as [[c attrs|items]|] eqn:Hl; try done.
  rewrite (setattr_instance l c attrs g y (log (EvGet (VRef l) g) w) Hl). simpl.
  by apply attr_of_insert_same.
Qed.

Lemma validate_fields_returns obj (fields : FieldTable) w :
  (for_each fields (BatchProcessor.validate_field obj) w).1 = Ok tt.
Proof.
  apply for_each_returns. intros x w0 _. apply validate_field_returns.
Qed.

(** X17: when the list of objects and the names of the table have no
    repetition, an instance of the list whose attribute [f] is present, is
    not [_MISSING] and is accepted by the validator of [f] holds the
    validator's result under [f] after [validate_batch]. *)
Theorem validate_batch_writes_back
    (objects : list Value) (fields : FieldTable) (l : loc) (f : string)
    (fld : MetaField.t) (v : ValidatorFn) (x y : Value) (w : World) :
  NoDup objects → NoDup fields.*1 →
  VRef l ∈ objects → (f, fld) ∈ fields →
  MetaField.validator fld = Some v →
  attr_of (heap w) (VRef l) f = Some x → x ≠ VMissing → v x = Ok y →
  attr_of (heap (BatchProcessor.validate_batch objects fields w).2) (VRef l) f = Some y.
Proof.
  intros Hobjs Hnames Hobj Hfld Hv Hx Hmiss Hy.
  assert (NoDup fields) as Hfields by (by eapply NoDup_fmap_1).
  assert (∀ g fld', (g, fld') ∈ fields → (g, fld') ≠ (f, fld) → g ≠ f) as Hother.
  { intros g fld' Hin Hne ->. apply Hne. f_equal.
    by apply (field_table_entry_unique fields f fld f fld' Hnames Hfld Hin). }
  unfold BatchProcessor.validate_batch.
  apply (foldM_switch
           (λ w, attr_of (heap w) (VRef l) f = Some x)
           (λ w, attr_of (heap w) (VRef l) f = Some y)) with (x0 := VRef l);
    [done|done| | | | |done].
  - intros results obj w0 _. unfold bind.
    pose proof (validate_fields_returns obj fields w0) as Hr.
    destruct (for_each fields (BatchProcessor.validate_field obj) w0) as [r w'].
    simpl in Hr. subst r. eauto.
  - intros results obj w0 _ Hne Hp. unfold bind.
    assert (attr_of (heap (for_each fields (BatchProcessor.validate_field obj) w0).2)
              (VRef l) f = Some x) as Hk.
    { apply (for_each_preserves
               (λ w w', attr_of (heap w) (VRef l) f = Some x →
                        attr_of (heap w') (VRef l) f = Some x)); auto.
      intros [g fld'] w1 _ H. rewrite validate_field_frame; [done|congruence]. }
    by destruct (for_each fields (BatchProcessor.validate_field obj) w0) as [[[]|e] w'].
  - intros results obj w0 _ Hne Hq. unfold bind.
    assert (attr_of (heap (for_each fields (BatchProcessor.validate_field obj) w0).2)
              (VRef l) f = Some y) as Hk.
    { apply (for_each_preserves
               (λ w w', attr_of (heap w) (VRef l) f = Some y →
                        attr_of (heap w') (VRef l) f = Some y)); auto.
      intros [g fld'] w1 _ H. rewrite validate_field_frame; [done|congruence]. }
    by destruct (for_each fields (BatchProcessor.validate_field obj) w0) as [[[]|e] w'].
  - intros results w0 Hp. unfold bind.
    assert (attr_of (heap (for_each fields (BatchProcessor.validate_field (VRef l)) w0).2)
              (VRef l) f = Some y) as Hk.
    { unfold for_each.
      apply (foldM_switch
               (λ w, attr_of (heap w) (VRef l) f = Some x)
               (λ w, attr_of (heap w) (VRef l) f = Some y)) with (x0 := (f, fld));
        [done|done| | | | |done].
      - intros [] entry w1 _. exists tt. apply validate_field_returns.
      - intros [] [g fld'] w1 Hin Hne' H.
        rewrite validate_field_frame; [done|].
        intros [= <-]. by apply (Hother f fld' Hin).
      - intros [] [g fld'] w1 Hin Hne' H.
        rewrite validate_field_frame; [done|].
        intros [= <-]. by apply (Hother f fld' Hin).
      - intros [] w1 H. by eapply validate_field_writes. }
    by destruct (for_each fields (BatchProcessor.validate_field (VRef l)) w0)
      as [[[]|e] w'].
Qed.

(** The sizes of the two records are replaced by their absolute values. *)
Lemma validate_batch_writes_back_witness :
  attr_of
    (heap (BatchProcessor.validate_batch [VRef 0%nat; VRef 1%nat] mixed_table
             two_records).2)
    (VRef 1%nat) "size" = Some (VInt 6).
Proof.
  apply (validate_batch_writes_back [VRef 0%nat; VRef 1%nat] mixed_table 1%nat "size"
           size_field absolute (VInt (-6)) (VInt 6) two_records).
  - apply (bool_decide_unpack _). vm_compute. exact I.
  - apply (bool_decide_unpack _). vm_compute. exact I.
  - right. left.
  - right. right. left.
  - reflexivity.
  - reflexivity.
  - discriminate.
  - reflexivity.
Defined.



(** X19: for one object and a one-field table, when the attribute holds
    [None] and the field has a default and no serializer, the factory is
    called and its value is what the mapping binds to the field; with
    [exclude_none] a produced [None] is left out.  So [exclude_none] acts
    on produced defaults only. *)
Theorem serialize_none_takes_default
    (obj : Value) (f : string) (fld : MetaField.t) (fac : Factory)
    (exclude_none : bool) (v : Value) (w w1 : World) :
  attr_of (heap w) obj f = Some VNone →
  MetaField.default fld = Some fac →
  MetaField.serializer fld = None →
  factory_call fac (log (EvGet obj f) w) = (Ok v, w1) →
  BatchProcessor.serialize_batch [obj] [(f, fld)] exclude_none w
  = (Ok [if exclude_none && bool_decide (v = VNone) then [] else [(f, v)]], w1).
Proof.
  intros Hattr Hdef Hser Hcall.
  unfold BatchProcessor.serialize_batch. rewrite foldM_cons. unfold bind at 1.
  rewrite foldM_cons.
  assert (BatchProcessor.serialize_field obj exclude_none [] (f, fld) w
          = (Ok (if exclude_none && bool_decide (v = VNone) then [] else [(f, v)]), w1))
    as ->.
  { unfold BatchProcessor.serialize_field, try_except, bind at 1, PyObject_GetAttr.
    rewrite Hattr. simpl. unfold MetaField.has_default, MetaField.produce.
    rewrite Hdef. unfold bind at 1. rewrite Hcall.
    destruct (exclude_none && bool_decide (v = VNone)); [done|].
    by rewrite Hser. }
  reflexivity.
Qed.

(** ["age"] is [None] and its factory gives 0; ["nickname"] is [None] and
    its factory gives [None], which [exclude_none] drops. *)
Lemma serialize_none_takes_default_witness :
  (BatchProcessor.serialize_batch [VRef 0%nat] [("age", age_field)] true unset_world).1
  = Ok [[("age", VInt 0)]]
  ∧ (BatchProcessor.serialize_batch [VRef 0%nat] [("nickname", nickname_field)] true
       unset_world).1 = Ok [[]]
  ∧ (BatchProcessor.serialize_batch [VRef 0%nat] [("nickname", nickname_field)] false
       unset_world).1 = Ok [[("nickname", VNone)]].
Proof.
  split; [|split].
  - rewrite (serialize_none_takes_default (VRef 0%nat) "age" age_field zero_factory true
               (VInt 0) unset_world (log (EvGet (VRef 0%nat) "age") unset_world));
      reflexivity.
  - rewrite (serialize_none_takes_default (VRef 0%nat) "nickname" nickname_field
               none_factory true VNone unset_world
               (log (EvGet (VRef 0%nat) "nickname") unset_world));
      reflexivity.
  - rewrite (serialize_none_takes_default (VRef 0%nat) "nickname" nickname_field
               none_factory false VNone unset_world
               (log (EvGet (VRef 0%nat) "nickname") unset_world));
      reflexivity.
Defined.

(** X20: the cache is keyed by the identity number alone.  After a write
    for one object, a read for any object that bears the same identity
    number returns the written value without touching the store, whatever
    that object's shadow attribute holds. *)
Theorem descriptor_cache_keyed_by_id
    (py_id : Value → Z) (d d' : OptimizedDescriptor.t) (obj other v : Value)
    (w w' : World) :
  OptimizedDescriptor.__set__ py_id d obj v w = (Ok d', w') →
  py_id other = py_id obj →
  other ≠ VNone →
  ∃ v', attr_of (heap w') obj (OptimizedDescriptor.shadow d) = Some v'
        ∧ ∀ w2, OptimizedDescriptor.__get__ py_id d' other w2
                = (Ok (OptimizedDescriptor.RetValue v', d'), w2).
Proof.
  intros Hset Hid Hother. revert Hset.
  unfold OptimizedDescriptor.__set__, bind, lift.
  destruct (to_c_int (py_id obj)) as [k|e] eqn:Hk; [|done].
  assert (∀ v', setattr obj (OptimizedDescriptor.shadow d) v' w = (Ok tt, w') →
            d' = OptimizedDescriptor.with_cache d
                   (<[k := v']> (OptimizedDescriptor._cache d)) →
            attr_of (heap w') obj (OptimizedDescriptor.shadow d) = Some v'
            ∧ ∀ w2, OptimizedDescriptor.__get__ py_id d' other w2
                    = (Ok (OptimizedDescriptor.RetValue v', d'), w2)) as Hgo.
  { intros v' Hs ->.
    apply setattr_inv in Hs as (l & c & attrs & -> & Hl & ->). split.
    - simpl. by apply attr_of_insert_same.
    - intros w2. unfold OptimizedDescriptor.__get__.
      destruct (decide (other = VNone)); [done|].
      unfold bind, lift. rewrite Hid, Hk. simpl. by rewrite lookup_insert_eq. }
  destruct (MetaField.validator (OptimizedDescriptor.field d)) as [validator|].
  - destruct (validator v) as [v'|e] eqn:Hv; [|done].
    destruct (setattr obj (OptimizedDescriptor.shadow d) v' w) as [[[]|e] w1] eqn:Hs;
      [|done].
    unfold ret. intros [= <- <-]. exists v'. by apply Hgo.
  - unfold ret at 1.
    destruct (setattr obj (OptimizedDescriptor.shadow d) v w) as [[[]|e] w1] eqn:Hs;
      [|done].
    unfold ret. intros [= <- <-]. exists v. by apply Hgo.
Qed.

(** The second instance, bearing the identity number of the first, reads
    the age written for the first. *)
Lemma descriptor_cache_keyed_by_id_witness :
  ∃ d' w',
    OptimizedDescriptor.__set__ reused_addresses age_descriptor (VRef 0%nat) (VInt 41)
      shadow_world = (Ok d', w')
    ∧ OptimizedDescriptor.__get__ reused_addresses d' (VRef 1%nat) w'
      = (Ok (OptimizedDescriptor.RetValue (VInt 41), d'), w')
    ∧ attr_of (heap w') (VRef 1%nat) "_age" = None.
Proof.
  assert (∃ d' w',
            OptimizedDescriptor.__set__ reused_addresses age_descriptor (VRef 0%nat)
              (VInt 41) shadow_world = (Ok d', w')) as (d' & w' & Hs)
    by (eexists; eexists; vm_compute; reflexivity).
  destruct (descriptor_cache_keyed_by_id reused_addresses age_descriptor d'
              (VRef 0%nat) (VRef 1%nat) (VInt 41) shadow_world w' Hs eq_refl)
    as (v' & Hv & Hget); [discriminate|].
  exists d', w'. split; [exact Hs|].
  assert (w' = (OptimizedDescriptor.__set__ reused_addresses age_descriptor (VRef 0%nat)
                  (VInt 41) shadow_world).2) as Hw by (by rewrite Hs).
  assert (v' = VInt 41) as ->.
  { rewrite Hw in Hv. vm_compute in Hv. by injection Hv as <-. }
  split; [apply Hget|]. rewrite Hw. reflexivity.
Defined.
